(** * AShootingGameCharacter: a shallow embedding and its properties

    The development follows
    [ShootingGameC/Source/ShootingGame/ShootingGameCharacter.{h,cpp}].

    The character is a record of the member variables the member functions
    read or write.  Every member function is a computation in a small monad
    that threads the character, reads the surrounding engine objects from an
    environment, logs each call it makes on an engine object or on another
    actor, and stops with a fault where the C++ dereferences a null pointer
    or fails a [check]. *)

From Stdlib Require Import List Bool Arith Lia QArith String.
Import ListNotations.
Local Close Scope Q_scope.
Local Open Scope string_scope.
Local Open Scope list_scope.

(** ** Engine values *)

(** C++ [float].  The member functions modelled here copy such values and
    compare one with zero; rationals carry that.  Infinities and NaN are
    left out. *)
Definition float := Q.
Bind Scope Q_scope with float.

(** The binary32 product [a * b * c] of the turn-rate handlers.  Its
    rounding and overflow are not those of the rationals, so the product is
    kept as its three operands, in the order the code multiplies them, and
    is never evaluated. *)
Record FloatProduct := mkFloatProduct {
  factor1 : float; factor2 : float; factor3 : float
}.

(** [FVector]: components X, Y, Z, in the order of its constructor. *)
Record FVector := mkFVector { vX : float; vY : float; vZ : float }.

(** [FRotator]: its constructor takes Pitch, Yaw, Roll in this order. *)
Record FRotator := mkFRotator { Pitch : float; Yaw : float; Roll : float }.

(** Objects of the engine are referred to by an identifier; a C++ pointer
    is an [option], [None] being [nullptr]. *)
Definition ObjId := nat.
Definition Ptr := option ObjId.

(** What the casts and the interface calls can observe of an actor that
    may sit in the weapon slot. *)
Record ObjInfo := mkObjInfo {
  implementsWeaponInterface : bool;  (* Cast<IWeaponInterface> succeeds *)
  isAWeapon : bool;                  (* Cast<AWeapon> succeeds *)
  IsCanUse : bool                    (* out-parameter of Execute_IsCanUse *)
}.

Record ControllerInfo := mkControllerInfo {
  ctrl_id : ObjId;
  ctrl_IsValid : bool;               (* IsValid(): not pending kill *)
  ctrl_ControlRotation : FRotator
}.

Record PlayerStateInfo := mkPlayerStateInfo {
  ps_id : ObjId;
  ps_isShootingPlayerState : bool;   (* Cast<AShootingPlayerState> succeeds *)
  ps_IsValid : bool;
  GetCurHp : float;
  GetMaxHp : float
}.

(** The engine objects a member function can query while it runs. *)
Record World := mkWorld {
  HasAuthority : bool;
  GetController : option ControllerInfo;
  GetControlRotation : FRotator;
  GetPlayerState : option PlayerStateInfo;
  objects : ObjId -> ObjInfo;
  GetDeltaSeconds : float
}.

(** ** The character *)

Record Actor := mkActor {
  BaseTurnRate : float;
  BaseLookUpRate : float;
  EquipWeapon : Ptr;
  ControlPitch : float;
  IsRagdoll : bool
}.

Definition set_EquipWeapon (p : Ptr) (s : Actor) : Actor :=
  mkActor (BaseTurnRate s) (BaseLookUpRate s) p (ControlPitch s) (IsRagdoll s).
Definition set_ControlPitch (x : float) (s : Actor) : Actor :=
  mkActor (BaseTurnRate s) (BaseLookUpRate s) (EquipWeapon s) x (IsRagdoll s).
Definition set_IsRagdoll (b : bool) (s : Actor) : Actor :=
  mkActor (BaseTurnRate s) (BaseLookUpRate s) (EquipWeapon s) (ControlPitch s) b.

(** ** Names of member functions, messages and calls *)

(** Member functions handed to the timer manager. *)
Inductive TimerCallback := cb_TestSetOwnerWeapon | cb_BindPlayerState.

Inductive TimerHandle := th_SetOwnerWeapon | th_BindPlayerState.

(** Member functions bound to input in [SetupPlayerInputComponent]. *)
Inductive Handler :=
| h_Jump | h_StopJumping | h_MoveForward | h_MoveRight
| h_AddControllerYawInput | h_TurnAtRate
| h_AddControllerPitchInput | h_LookUpAtRate
| h_TouchStarted | h_TouchStopped | h_OnResetVR
| h_PressTrigger | h_PressTestKey | h_PressReload.

Inductive InputEvent := IE_Pressed | IE_Released.

(** The six remote procedure calls declared in the header. *)
Inductive Rpc :=
| rpc_ReqPressTrigger | rpc_ResPressTrigger
| rpc_ReqPressC | rpc_ResPressC
| rpc_ReqPressReload | rpc_ResPressReload.

(** The texts given to [AddOnScreenDebugMessage], with their arguments. *)
Inductive DebugText :=
| txt_TakeDamage (DamageAmount : float) (InstigatorName : ObjId)
| txt_OnUpdateHp (CurrentHp : float)
| txt_PressTestKey
| txt_SetOwnerComplate (OwnerName : ObjId).

Inductive Axis := axis_X | axis_Y.

(** Every call that leaves the character. *)
Inductive Event :=
| AddOnScreenDebugMessage (t : DebugText)
| Super_BeginPlay
| Super_Tick (DeltaTime : float)
| Super_GetLifetimeReplicatedProps
| Mesh_SetSimulatePhysics (b : bool)
| Mesh_AttachToRoot_KeepRelativeTransform
| Mesh_SetRelativeLocationAndRotation (loc : FVector) (rot : FRotator)
| Execute_IsCanUse (item : ObjId)
| Execute_PressTrigger (item : ObjId)
| Execute_PressReload (item : ObjId)
| Execute_NotifyShoot (item : ObjId)
| Item_SetOwner (item : ObjId) (owner : ObjId)
| Weapon_set_OwnChar (item : ObjId)
| Weapon_UpdateAmmoToHud (item : ObjId)
| PlayerState_AddDamage (ps : ObjId) (Damage : float)
| PlayerState_AddUFunction (ps : ObjId) (fname : string)
| SetTimer (h : TimerHandle) (cb : TimerCallback) (rate : float) (loop : bool)
| SendToServer (r : Rpc)
| Multicast (r : Rpc)
| BindAction (name : string) (ie : InputEvent) (h : Handler)
| BindAxis (name : string) (h : Handler)
| BindTouch (ie : InputEvent) (h : Handler)
| Character_Jump
| Character_StopJumping
| AddControllerYawInput (v : FloatProduct)
| AddControllerPitchInput (v : FloatProduct)
| AddMovementInput (a : Axis) (yaw : float) (Value : float)
| ResetOrientationAndPosition.

(** ** The monad of member functions *)

Inductive Fault := NullDereference | CheckFailed.

(** A member function either returns a value with the character as it left
    it and the calls it made, in order, or stops at a fault after the calls
    made so far. *)
Inductive Outcome (A : Type) :=
| Returned (a : A) (s : Actor) (log : list Event)
| Crashed (f : Fault) (log : list Event).
Arguments Returned {A} a s log.
Arguments Crashed {A} f log.

Definition M (A : Type) := World -> Actor -> Outcome A.

Definition ret {A} (a : A) : M A := fun _ s => Returned a s [].

Definition bind {A B} (m : M A) (k : A -> M B) : M B :=
  fun w s =>
    match m w s with
    | Returned a s1 l1 =>
        match k a w s1 with
        | Returned b s2 l2 => Returned b s2 (l1 ++ l2)
        | Crashed f l2 => Crashed f (l1 ++ l2)
        end
    | Crashed f l1 => Crashed f l1
    end.

Declare Scope actor_scope.
Delimit Scope actor_scope with actor.
Notation "x <- m ;; k" := (bind m (fun x => k))
  (at level 61, m at next level, right associativity) : actor_scope.
Notation "m ;; k" := (bind m (fun _ => k))
  (at level 61, right associativity) : actor_scope.
Local Open Scope actor_scope.

Definition call (e : Event) : M unit := fun _ s => Returned tt s [e].
Definition this : M Actor := fun _ s => Returned s s [].
Definition world : M World := fun w s => Returned w s [].
Definition assign (f : Actor -> Actor) : M unit := fun _ s => Returned tt (f s) [].
Definition crash {A} (f : Fault) : M A := fun _ _ => Crashed f [].

(** [p->...]: the pointee, or a fault on [nullptr]. *)
Definition deref {A} (p : option A) : M A :=
  match p with
  | Some a => ret a
  | None => crash NullDereference
  end.

(** Projections of an outcome. *)
Definition log_of {A} (o : Outcome A) : list Event :=
  match o with Returned _ _ l => l | Crashed _ l => l end.
Definition actor_of {A} (s0 : Actor) (o : Outcome A) : Actor :=
  match o with Returned _ s _ => s | Crashed _ _ => s0 end.
Definition returned {A} (o : Outcome A) : bool :=
  match o with Returned _ _ _ => true | Crashed _ _ => false end.

(** ** Casts and validity tests *)

Definition Cast_IWeaponInterface (w : World) (p : Ptr) : Ptr :=
  match p with
  | Some o => if implementsWeaponInterface (objects w o) then Some o else None
  | None => None
  end.

Definition Cast_AWeapon (w : World) (p : Ptr) : Ptr :=
  match p with
  | Some o => if isAWeapon (objects w o) then Some o else None
  | None => None
  end.

Definition Cast_AShootingPlayerState (p : option PlayerStateInfo)
  : option PlayerStateInfo :=
  match p with
  | Some i => if ps_isShootingPlayerState i then Some i else None
  | None => None
  end.

Definition IsValid_controller (p : option ControllerInfo) : bool :=
  match p with Some c => ctrl_IsValid c | None => false end.

Definition IsValid_playerstate (p : option PlayerStateInfo) : bool :=
  match p with Some i => ps_IsValid i | None => false end.

(** ** Remote procedure calls

    Modelled from the spec: the bodies of [ReqPressTrigger], [ResPressTrigger],
    [ReqPressC], [ResPressC], [ReqPressReload] and [ResPressReload] are
    generated from the [UFUNCTION(Server, Reliable)] and
    [UFUNCTION(NetMulticast, Reliable)] declarations of the header and are
    not in the source.  Calling a request fires a message to the authority;
    calling a response fires a message broadcast to all participants; the
    node that receives a message runs the matching [_Implementation]
    (see [deliver] below). *)
Definition ReqPressTrigger : M unit := call (SendToServer rpc_ReqPressTrigger).
Definition ResPressTrigger : M unit := call (Multicast rpc_ResPressTrigger).
Definition ReqPressC : M unit := call (SendToServer rpc_ReqPressC).
Definition ResPressC : M unit := call (Multicast rpc_ResPressC).
Definition ReqPressReload : M unit := call (SendToServer rpc_ReqPressReload).
Definition ResPressReload : M unit := call (Multicast rpc_ResPressReload).

(** ** Member functions of [AShootingGameCharacter] *)

(** The constructor, for the members kept in [Actor]; [EquipWeapon] and
    [ControlPitch] are properties the engine zero-initialises. *)
Definition AShootingGameCharacter : Actor :=
  {| BaseTurnRate := 45%Q; BaseLookUpRate := 45%Q;
     EquipWeapon := None; ControlPitch := 0%Q; IsRagdoll := false |}.

Definition DoRagdoll : M unit :=
  assign (set_IsRagdoll true) ;;
  call (Mesh_SetSimulatePhysics true).

Definition DoGetup : M unit :=
  assign (set_IsRagdoll false) ;;
  call (Mesh_SetSimulatePhysics false) ;;
  call Mesh_AttachToRoot_KeepRelativeTransform ;;
  let loc := mkFVector 0%Q 0%Q (-97)%Q in
  let Rot := mkFRotator 0%Q 270%Q 0%Q in
  call (Mesh_SetRelativeLocationAndRotation loc Rot).

Definition OnUpdateHp_Implementation (CurrentHp MaxHp : float) : M unit :=
  call (AddOnScreenDebugMessage (txt_OnUpdateHp CurrentHp)) ;;
  if Qle_bool CurrentHp 0%Q then DoRagdoll else ret tt.

(** [OnUpdateHp] is a [BlueprintNativeEvent]; with no Blueprint override it
    runs the native implementation. *)
Definition OnUpdateHp (CurrentHp MaxHp : float) : M unit :=
  OnUpdateHp_Implementation CurrentHp MaxHp.

Definition BindPlayerState : M unit :=
  w <- world ;;
  let ps := Cast_AShootingPlayerState (GetPlayerState w) in
  if IsValid_playerstate ps then
    p <- deref ps ;;
    call (PlayerState_AddUFunction (ps_id p) "OnUpdateHp") ;;
    OnUpdateHp (GetCurHp p) (GetMaxHp p)
  else
    call (SetTimer th_BindPlayerState cb_BindPlayerState (1 # 10)%Q false).

Definition BeginPlay : M unit :=
  call Super_BeginPlay ;;
  BindPlayerState.

Definition Tick (DeltaTime : float) : M unit :=
  call (Super_Tick DeltaTime) ;;
  w <- world ;;
  if Bool.eqb (HasAuthority w) true then
    assign (set_ControlPitch (Pitch (GetControlRotation w)))
  else ret tt.

(** The [DamageEvent] argument is not used by the body and is left out;
    the name of the instigator is its identifier. *)
Definition TakeDamage (DamageAmount : float) (EventInstigator DamageCauser : Ptr)
  : M float :=
  name <- deref EventInstigator ;;
  call (AddOnScreenDebugMessage (txt_TakeDamage DamageAmount name)) ;;
  w <- world ;;
  let ps := Cast_AShootingPlayerState (GetPlayerState w) in
  match ps with
  | Some p => call (PlayerState_AddDamage (ps_id p) DamageAmount)
  | None => ret tt
  end ;;
  ret 0%Q.

(** The properties registered for replication. *)
Inductive ReplicatedProp := prop_ControlPitch | prop_EquipWeapon.

Definition GetLifetimeReplicatedProps : M (list ReplicatedProp) :=
  call Super_GetLifetimeReplicatedProps ;;
  ret [prop_ControlPitch; prop_EquipWeapon].

Definition SetupPlayerInputComponent (PlayerInputComponent : Ptr) : M unit :=
  match PlayerInputComponent with
  | None => crash CheckFailed
  | Some _ =>
      call (BindAction "Jump" IE_Pressed h_Jump) ;;
      call (BindAction "Jump" IE_Released h_StopJumping) ;;
      call (BindAxis "MoveForward" h_MoveForward) ;;
      call (BindAxis "MoveRight" h_MoveRight) ;;
      call (BindAxis "Turn" h_AddControllerYawInput) ;;
      call (BindAxis "TurnRate" h_TurnAtRate) ;;
      call (BindAxis "LookUp" h_AddControllerPitchInput) ;;
      call (BindAxis "LookUpRate" h_LookUpAtRate) ;;
      call (BindTouch IE_Pressed h_TouchStarted) ;;
      call (BindTouch IE_Released h_TouchStopped) ;;
      call (BindAction "ResetVR" IE_Pressed h_OnResetVR) ;;
      call (BindAction "Trigger" IE_Pressed h_PressTrigger) ;;
      call (BindAction "TestKey" IE_Pressed h_PressTestKey) ;;
      call (BindAction "Reload" IE_Pressed h_PressReload)
  end.

Definition TestSetOwnerWeapon : M unit :=
  w <- world ;;
  if IsValid_controller (GetController w) then
    c <- deref (GetController w) ;;
    call (AddOnScreenDebugMessage (txt_SetOwnerComplate (ctrl_id c))) ;;
    s <- this ;;
    item <- deref (EquipWeapon s) ;;
    call (Item_SetOwner item (ctrl_id c)) ;;
    match Cast_AWeapon w (EquipWeapon s) with
    | Some weapon =>
        call (Weapon_set_OwnChar weapon) ;;
        call (Weapon_UpdateAmmoToHud weapon)
    | None => ret tt
    end
  else
    call (SetTimer th_SetOwnerWeapon cb_TestSetOwnerWeapon (1 # 10)%Q false).

Definition SetEquipWeapon (Weapon : Ptr) : M Ptr :=
  assign (set_EquipWeapon Weapon) ;;
  TestSetOwnerWeapon ;;
  s <- this ;;
  ret (EquipWeapon s).

Definition OnNotifyShoot : M unit :=
  w <- world ;;
  s <- this ;;
  match Cast_IWeaponInterface w (EquipWeapon s) with
  | Some InterfaceObj => call (Execute_NotifyShoot InterfaceObj)
  | None => ret tt
  end.

Definition ReqPressTrigger_Implementation : M unit :=
  w <- world ;;
  s <- this ;;
  match Cast_IWeaponInterface w (EquipWeapon s) with
  | Some InterfaceObj =>
      call (Execute_IsCanUse InterfaceObj) ;;
      let IsCanUse := IsCanUse (objects w InterfaceObj) in
      if Bool.eqb IsCanUse false then ret tt
      else ResPressTrigger
  | None => ResPressTrigger
  end.

Definition ResPressTrigger_Implementation : M unit :=
  w <- world ;;
  s <- this ;;
  match Cast_IWeaponInterface w (EquipWeapon s) with
  | Some InterfaceObj => call (Execute_PressTrigger InterfaceObj)
  | None => ret tt
  end.

Definition ReqPressC_Implementation : M unit := ResPressC.

Definition ResPressC_Implementation : M unit :=
  s <- this ;;
  if IsRagdoll s then DoGetup else DoRagdoll.

Definition ReqPressReload_Implementation : M unit := ResPressReload.

Definition ResPressReload_Implementation : M unit :=
  w <- world ;;
  s <- this ;;
  match Cast_IWeaponInterface w (EquipWeapon s) with
  | Some InterfaceObj => call (Execute_PressReload InterfaceObj)
  | None => ret tt
  end.

Definition OnResetVR : M unit := call ResetOrientationAndPosition.

(** The touch handlers ignore their finger index and location. *)
Definition TouchStarted : M unit := call Character_Jump.

Definition TouchStopped : M unit := call Character_StopJumping.

Definition PressTrigger : M unit := ReqPressTrigger.

Definition PressTestKey : M unit :=
  call (AddOnScreenDebugMessage txt_PressTestKey) ;;
  ReqPressC.

Definition PressReload : M unit := ReqPressReload.

Definition TurnAtRate (Rate : float) : M unit :=
  w <- world ;;
  s <- this ;;
  call (AddControllerYawInput
          (mkFloatProduct Rate (BaseTurnRate s) (GetDeltaSeconds w))).

Definition LookUpAtRate (Rate : float) : M unit :=
  w <- world ;;
  s <- this ;;
  call (AddControllerPitchInput
          (mkFloatProduct Rate (BaseLookUpRate s) (GetDeltaSeconds w))).

(** [FRotationMatrix(YawRotation).GetUnitAxis(axis)] is kept as the pair of
    the axis and the yaw it is taken at. *)
Definition MoveForward (Value : float) : M unit :=
  w <- world ;;
  match GetController w with
  | Some Controller =>
      if negb (Qeq_bool Value 0%Q) then
        let Rotation := ctrl_ControlRotation Controller in
        call (AddMovementInput axis_X (Yaw Rotation) Value)
      else ret tt
  | None => ret tt
  end.

Definition MoveRight (Value : float) : M unit :=
  w <- world ;;
  match GetController w with
  | Some Controller =>
      if negb (Qeq_bool Value 0%Q) then
        let Rotation := ctrl_ControlRotation Controller in
        call (AddMovementInput axis_Y (Yaw Rotation) Value)
      else ret tt
  | None => ret tt
  end.

Definition GetControlPitch : M float :=
  s <- this ;;
  ret (ControlPitch s).

(** ** The operations of the character, as data *)

(** One constructor per member function of the class: what the engine, the
    input system, the timer manager, a Blueprint or the network layer can
    invoke on the character. *)
Inductive Op :=
| op_BeginPlay
| op_Tick (DeltaTime : float)
| op_TakeDamage (DamageAmount : float) (EventInstigator DamageCauser : Ptr)
| op_GetLifetimeReplicatedProps
| op_SetupPlayerInputComponent (PlayerInputComponent : Ptr)
| op_SetEquipWeapon (Weapon : Ptr)
| op_OnNotifyShoot
| op_OnUpdateHp (CurrentHp MaxHp : float)
| op_DoRagdoll
| op_DoGetup
| op_ReqPressTrigger_Implementation
| op_ResPressTrigger_Implementation
| op_ReqPressC_Implementation
| op_ResPressC_Implementation
| op_ReqPressReload_Implementation
| op_ResPressReload_Implementation
| op_OnResetVR
| op_TouchStarted
| op_TouchStopped
| op_PressTrigger
| op_PressTestKey
| op_TestSetOwnerWeapon
| op_BindPlayerState
| op_PressReload
| op_TurnAtRate (Rate : float)
| op_LookUpAtRate (Rate : float)
| op_MoveForward (Value : float)
| op_MoveRight (Value : float)
| op_GetControlPitch.

Definition discard {A} (m : M A) : M unit := _ <- m ;; ret tt.

Definition exec (o : Op) : M unit :=
  match o with
  | op_BeginPlay => BeginPlay
  | op_Tick dt => Tick dt
  | op_TakeDamage d i c => discard (TakeDamage d i c)
  | op_GetLifetimeReplicatedProps => discard GetLifetimeReplicatedProps
  | op_SetupPlayerInputComponent p => SetupPlayerInputComponent p
  | op_SetEquipWeapon p => discard (SetEquipWeapon p)
  | op_OnNotifyShoot => OnNotifyShoot
  | op_OnUpdateHp c m => OnUpdateHp c m
  | op_DoRagdoll => DoRagdoll
  | op_DoGetup => DoGetup
  | op_ReqPressTrigger_Implementation => ReqPressTrigger_Implementation
  | op_ResPressTrigger_Implementation => ResPressTrigger_Implementation
  | op_ReqPressC_Implementation => ReqPressC_Implementation
  | op_ResPressC_Implementation => ResPressC_Implementation
  | op_ReqPressReload_Implementation => ReqPressReload_Implementation
  | op_ResPressReload_Implementation => ResPressReload_Implementation
  | op_OnResetVR => OnResetVR
  | op_TouchStarted => TouchStarted
  | op_TouchStopped => TouchStopped
  | op_PressTrigger => PressTrigger
  | op_PressTestKey => PressTestKey
  | op_TestSetOwnerWeapon => TestSetOwnerWeapon
  | op_BindPlayerState => BindPlayerState
  | op_PressReload => PressReload
  | op_TurnAtRate r => TurnAtRate r
  | op_LookUpAtRate r => LookUpAtRate r
  | op_MoveForward v => MoveForward v
  | op_MoveRight v => MoveRight v
  | op_GetControlPitch => discard GetControlPitch
  end.

(** ** Message delivery and runs *)

(** The member function a node runs when the network layer hands it one of
    the six messages. *)
Definition deliver (r : Rpc) : Op :=
  match r with
  | rpc_ReqPressTrigger => op_ReqPressTrigger_Implementation
  | rpc_ResPressTrigger => op_ResPressTrigger_Implementation
  | rpc_ReqPressC => op_ReqPressC_Implementation
  | rpc_ResPressC => op_ResPressC_Implementation
  | rpc_ReqPressReload => op_ReqPressReload_Implementation
  | rpc_ResPressReload => op_ResPressReload_Implementation
  end.

(** The messages a list of calls broadcast to all participants. *)
Fixpoint broadcasts (l : list Event) : list Rpc :=
  match l with
  | [] => []
  | Multicast r :: l' => r :: broadcasts l'
  | _ :: l' => broadcasts l'
  end.

(** One operation of a run: the engine objects as they were when it ran,
    the operation, the character before it, and what it did. *)
Record Step := mkStep {
  st_world : World;
  st_op : Op;
  st_before : Actor;
  st_outcome : Outcome unit
}.

(** A node runs its operations one after the other on its single tick
    thread; between two of them the engine objects may have changed, so each
    operation comes with its own [World].  A fault ends the run. *)
Fixpoint run (script : list (World * Op)) (s : Actor) : list Step :=
  match script with
  | [] => []
  | (w, o) :: rest =>
      let r := exec o w s in
      mkStep w o s r ::
        match r with
        | Returned _ s' _ => run rest s'
        | Crashed _ _ => []
        end
  end.

Definition is_trigger_request (st : Step) : bool :=
  match st_op st with
  | op_ReqPressTrigger_Implementation => true
  | _ => false
  end.

Definition is_trigger_response (e : Event) : bool :=
  match e with
  | Multicast rpc_ResPressTrigger => true
  | _ => false
  end.

(** The number of Trigger responses a step broadcast. *)
Definition responses_sent (st : Step) : nat :=
  List.length (filter is_trigger_response (log_of (st_outcome st))).

(** The condition of the Trigger row of the action table: the weapon
    capability cast fails, or the item's can-use query answers true. *)
Definition no_item_or_can_use (w : World) (s : Actor) : bool :=
  match Cast_IWeaponInterface w (EquipWeapon s) with
  | Some item => IsCanUse (objects w item)
  | None => true
  end.

(** ** Proof automation *)

Ltac unfold_monad :=
  cbv [bind ret call this world assign crash deref discard] in *.

(** Case analysis on whatever the outcome still branches on. *)
Ltac split_branches :=
  repeat match goal with
    | |- context [match ?x with _ => _ end] =>
        lazymatch x with
        | context [match _ with _ => _ end] => fail
        | _ => destruct x eqn:?
        end
    | |- context [if ?x then _ else _] =>
        lazymatch x with
        | context [if _ then _ else _] => fail
        | _ => destruct x eqn:?
        end
    end.

Ltac unfold_members :=
  cbv [exec BeginPlay Tick TakeDamage GetLifetimeReplicatedProps
       SetupPlayerInputComponent SetEquipWeapon OnNotifyShoot OnUpdateHp
       OnUpdateHp_Implementation DoRagdoll DoGetup
       ReqPressTrigger_Implementation ResPressTrigger_Implementation
       ReqPressC_Implementation ResPressC_Implementation
       ReqPressReload_Implementation ResPressReload_Implementation
       OnResetVR TouchStarted TouchStopped PressTrigger PressTestKey
       TestSetOwnerWeapon BindPlayerState PressReload TurnAtRate
       LookUpAtRate MoveForward MoveRight GetControlPitch
       ReqPressTrigger ResPressTrigger ReqPressC ResPressC
       ReqPressReload ResPressReload] in *.

(** ** The ragdoll flag *)

(** The operations that are the ToggleRagdoll response or one of its two
    actions. *)
Definition toggle_ragdoll_action (o : Op) : bool :=
  match o with
  | op_ResPressC_Implementation | op_DoRagdoll | op_DoGetup => true
  | _ => false
  end.

(** The health notification that [BindPlayerState] delivers when the player
    state is bound: its current health is at most zero. *)
Definition binds_at_zero_hp (w : World) : bool :=
  match Cast_AShootingPlayerState (GetPlayerState w) with
  | Some p => ps_IsValid p && Qle_bool (GetCurHp p) 0
  | None => false
  end.

(** The operations that reach [DoRagdoll] or [DoGetup]. *)
Definition reaches_ragdoll_action (w : World) (o : Op) : bool :=
  match o with
  | op_ResPressC_Implementation | op_DoRagdoll | op_DoGetup => true
  | op_OnUpdateHp CurrentHp _ => Qle_bool CurrentHp 0
  | op_BindPlayerState | op_BeginPlay => binds_at_zero_hp w
  | _ => false
  end.

Definition is_SetSimulatePhysics (e : Event) : bool :=
  match e with Mesh_SetSimulatePhysics _ => true | _ => false end.

(** ** Engine states of the examples *)

(** An engine state with nothing in it. *)
Definition no_object : ObjInfo := mkObjInfo false false false.
Definition ZeroRotator : FRotator := mkFRotator 0 0 0.
Definition empty_world : World :=
  mkWorld true None ZeroRotator None (fun _ => no_object) 0.


(** A rifle in the examples: object 7 has the weapon capability, is an
    [AWeapon], and answers its can-use query with [canuse]; controller 1 is
    valid; player state 3 is a shooting player state at 100 of 100. *)
Definition rifle : ObjId := 7.
Definition rifle_world (canuse : bool) : World :=
  mkWorld true
    (Some (mkControllerInfo 1 true ZeroRotator))
    ZeroRotator
    (Some (mkPlayerStateInfo 3 true true 100 100))
    (fun o => if Nat.eqb o rifle then mkObjInfo true true canuse else no_object)
    0.

(** ** Control pitch *)

Definition is_Tick (o : Op) : bool :=
  match o with op_Tick _ => true | _ => false end.

Definition looking_up_world (authority : bool) : World :=
  mkWorld authority None (mkFRotator 30 0 0) None (fun _ => no_object) 0.

(** ** Deferred binding *)

Definition callback_op (cb : TimerCallback) : Op :=
  match cb with
  | cb_TestSetOwnerWeapon => op_TestSetOwnerWeapon
  | cb_BindPlayerState => op_BindPlayerState
  end.

Definition is_SetTimer (e : Event) : bool :=
  match e with SetTimer _ _ _ _ => true | _ => false end.

(** How a chain of checks ends: the last check set no timer; a check
    faulted; or the chain was cut while a timer was still pending.  Each
    carries the calls of the checks made, one list per check. *)
Inductive Chain :=
| Settled (checks : list (list Event)) (s : Actor)
| Faulted (checks : list (list Event))
| Pending (checks : list (list Event)).

Definition after_check (l : list Event) (c : Chain) : Chain :=
  match c with
  | Settled ls s => Settled (l :: ls) s
  | Faulted ls => Faulted (l :: ls)
  | Pending ls => Pending (l :: ls)
  end.

(** Modelled from the spec: the Timer Service, [schedule(delay, callback)],
    one-shot, is the engine's timer manager and is not in the source.  A
    check that set a timer is followed, one delay later, by one call of the
    callback it named; a check that set none is followed by nothing.
    [env k] is the engine state at the [k]-th check, the first attempt
    being check 0; [fuel] bounds the number of checks looked at. *)
Fixpoint checks (fuel : nat) (env : nat -> World) (k : nat) (o : Op) (s : Actor)
  : Chain :=
  match fuel with
  | 0 => Pending []
  | S fuel' =>
      match exec o (env k) s with
      | Crashed _ l => Faulted [l]
      | Returned _ s' l =>
          match filter is_SetTimer l with
          | SetTimer _ cb _ _ :: _ =>
              after_check l (checks fuel' env (S k) (callback_op cb) s')
          | _ => Settled [l] s'
          end
      end
  end.

(** The two deferred bindings: the owner of the item just equipped, and
    the health notifications of the player state. *)
Inductive Binding :=
| WeaponOwner (item : ObjId)
| PlayerStateHealth.

(** The call that starts a binding. *)
Definition first_attempt (b : Binding) : Op :=
  match b with
  | WeaponOwner item => op_SetEquipWeapon (Some item)
  | PlayerStateHealth => op_BeginPlay
  end.

Definition target_available (b : Binding) (w : World) : bool :=
  match b with
  | WeaponOwner _ => IsValid_controller (GetController w)
  | PlayerStateHealth =>
      IsValid_playerstate (Cast_AShootingPlayerState (GetPlayerState w))
  end.

Definition retry_of (b : Binding) : Event :=
  match b with
  | WeaponOwner _ =>
      SetTimer th_SetOwnerWeapon cb_TestSetOwnerWeapon (1 # 10)%Q false
  | PlayerStateHealth =>
      SetTimer th_BindPlayerState cb_BindPlayerState (1 # 10)%Q false
  end.

Definition retry_op (b : Binding) : Op :=
  match b with
  | WeaponOwner _ => op_TestSetOwnerWeapon
  | PlayerStateHealth => op_BindPlayerState
  end.

(** The one-time bind action: the set-owner call on the item, or the
    subscription to the health notifications. *)
Definition is_bind_action (b : Binding) (e : Event) : bool :=
  match b, e with
  | WeaponOwner item, Item_SetOwner item' _ => Nat.eqb item item'
  | PlayerStateHealth, PlayerState_AddUFunction _ _ => true
  | _, _ => false
  end.

(** What a retry relies on: the item is still in the slot. *)
Definition slot_holds (b : Binding) (s : Actor) : Prop :=
  match b with
  | WeaponOwner item => EquipWeapon s = Some item
  | PlayerStateHealth => True
  end.

(** A check that only rescheduled, and a check that bound. *)
Definition rescheduled (b : Binding) (l : list Event) : Prop :=
  filter is_SetTimer l = [retry_of b] /\ filter (is_bind_action b) l = [].

Definition bound_once (b : Binding) (l : list Event) : Prop :=
  filter is_SetTimer l = []
  /\ List.length (filter (is_bind_action b) l) = 1.

(** The controller and the player state arrive two retry intervals after
    the first attempt. *)
Definition arriving_late (k : nat) : World :=
  if Nat.ltb k 2 then empty_world else rifle_world true.

(** ** Whole scripts *)

(** A script run to its end: the character it leaves and all the calls made,
    or the fault that cut it short. *)
Fixpoint exec_all (script : list (World * Op)) (s : Actor) : Outcome unit :=
  match script with
  | [] => Returned tt s []
  | (w, o) :: rest =>
      match exec o w s with
      | Returned _ s1 l1 =>
          match exec_all rest s1 with
          | Returned _ s2 l2 => Returned tt s2 (l1 ++ l2)
          | Crashed f l2 => Crashed f (l1 ++ l2)
          end
      | Crashed f l1 => Crashed f l1
      end
  end.

(** The state of the physics simulation of the mesh after a list of calls,
    as far as these calls decide it. *)
Fixpoint physics_after (simulating : bool) (l : list Event) : bool :=
  match l with
  | [] => simulating
  | Mesh_SetSimulatePhysics b :: l' => physics_after b l'
  | _ :: l' => physics_after simulating l'
  end.

(** The item in the slot after a script: the argument of the last
    [SetEquipWeapon], or what was there. *)
Fixpoint last_equipped (script : list (World * Op)) (p : Ptr) : Ptr :=
  match script with
  | [] => p
  | (_, op_SetEquipWeapon q) :: rest => last_equipped rest q
  | _ :: rest => last_equipped rest p
  end.

(** The control pitch after a script: the pitch of the control rotation at
    the last tick made with authority, or what it was. *)
Fixpoint pitch_after (script : list (World * Op)) (p : float) : float :=
  match script with
  | [] => p
  | (w, op_Tick _) :: rest =>
      pitch_after rest
        (if HasAuthority w then Pitch (GetControlRotation w) else p)
  | _ :: rest => pitch_after rest p
  end.

(** The operations whose body assigns a member of the character, directly
    or through a call. *)
Definition may_change_character (o : Op) : bool :=
  match o with
  | op_Tick _ | op_SetEquipWeapon _ | op_DoRagdoll | op_DoGetup
  | op_ResPressC_Implementation | op_OnUpdateHp _ _
  | op_BindPlayerState | op_BeginPlay => true
  | _ => false
  end.

Definition stands_up (o : Op) : bool :=
  match o with
  | op_DoGetup | op_ResPressC_Implementation => true
  | _ => false
  end.

(** The inputs on which an operation stops at a fault. *)
Definition faults (w : World) (s : Actor) (o : Op) : bool :=
  match o with
  | op_TakeDamage _ None _ => true
  | op_SetupPlayerInputComponent None => true
  | op_SetEquipWeapon None => IsValid_controller (GetController w)
  | op_TestSetOwnerWeapon =>
      IsValid_controller (GetController w)
      && match EquipWeapon s with None => true | Some _ => false end
  | _ => false
  end.

(** ** Messages and the relay *)

Definition is_message (e : Event) : bool :=
  match e with
  | SendToServer _ | Multicast _ => true
  | _ => false
  end.

(** The one member function whose body contains the call that fires a
    message. *)
Definition message_source (e : Event) : option Op :=
  match e with
  | SendToServer rpc_ReqPressTrigger => Some op_PressTrigger
  | SendToServer rpc_ReqPressC => Some op_PressTestKey
  | SendToServer rpc_ReqPressReload => Some op_PressReload
  | Multicast rpc_ResPressTrigger => Some op_ReqPressTrigger_Implementation
  | Multicast rpc_ResPressC => Some op_ReqPressC_Implementation
  | Multicast rpc_ResPressReload => Some op_ReqPressReload_Implementation
  | _ => None
  end.

(** The messages a list of calls sent to the authority. *)
Fixpoint requests_sent (l : list Event) : list Rpc :=
  match l with
  | [] => []
  | SendToServer r :: l' => r :: requests_sent l'
  | _ :: l' => requests_sent l'
  end.

(** An operation on the originating node, each request it sent handled by
    the authority, and each response the authority broadcast handled by one
    participant; every node has its own engine objects and its own copy of
    the character.  The result lists what the participant did, one outcome
    per response it received. *)
Definition relay (o : Op) (origin authority participant : World * Actor)
  : list (Outcome unit) :=
  flat_map
    (fun req =>
       map (fun res => exec (deliver res) (fst participant) (snd participant))
         (broadcasts
            (log_of (exec (deliver req) (fst authority) (snd authority)))))
    (requests_sent (log_of (exec o (fst origin) (snd origin)))).

(** ** Calls on the item *)

(** The item a call through [IWeaponInterface] is made on. *)
Definition interface_call_target (e : Event) : option ObjId :=
  match e with
  | Execute_IsCanUse i | Execute_PressTrigger i
  | Execute_PressReload i | Execute_NotifyShoot i => Some i
  | _ => None
  end.

(** Whether, in a list of calls, every ammo display refresh of an item comes
    after a set-owner call and the assignment of [OwnChar] on that item;
    [owned] and [charred] are the items that had these so far. *)
Fixpoint refresh_after_owner (owned charred : list ObjId) (l : list Event)
  : bool :=
  match l with
  | [] => true
  | Item_SetOwner i _ :: l' => refresh_after_owner (i :: owned) charred l'
  | Weapon_set_OwnChar i :: l' => refresh_after_owner owned (i :: charred) l'
  | Weapon_UpdateAmmoToHud i :: l' =>
      existsb (Nat.eqb i) owned && existsb (Nat.eqb i) charred
      && refresh_after_owner owned charred l'
  | _ :: l' => refresh_after_owner owned charred l'
  end.

(** A player state that is there but no longer valid (pending kill). *)
Definition dying_world : World :=
  mkWorld true None ZeroRotator
    (Some (mkPlayerStateInfo 3 true false 40 100))
    (fun _ => no_object) 0.

(** * Properties *)

(** ** Trigger requests *)

Lemma ReqPressTrigger_Implementation_outcome (w : World) (s : Actor) :
  ReqPressTrigger_Implementation w s =
    Returned tt s
      (match Cast_IWeaponInterface w (EquipWeapon s) with
       | Some item =>
           Execute_IsCanUse item ::
             (if IsCanUse (objects w item)
              then [Multicast rpc_ResPressTrigger] else [])
       | None => [Multicast rpc_ResPressTrigger]
       end).
Proof.
  unfold ReqPressTrigger_Implementation, ResPressTrigger. unfold_monad.
  destruct (Cast_IWeaponInterface w (EquipWeapon s)) as [item|]; [|reflexivity].
  destruct (IsCanUse (objects w item)); reflexivity.
Qed.

Lemma trigger_request_responses (w : World) (s : Actor) :
  List.length (filter is_trigger_response
                 (log_of (ReqPressTrigger_Implementation w s)))
  = if no_item_or_can_use w s then 1 else 0.
Proof.
  rewrite ReqPressTrigger_Implementation_outcome. unfold no_item_or_can_use.
  destruct (Cast_IWeaponInterface w (EquipWeapon s)) as [item|]; [|reflexivity].
  destruct (IsCanUse (objects w item)); reflexivity.
Qed.

(** C1.  In every run of operations on the authoritative node, each handled
    Trigger request broadcasts exactly one Trigger response when, as the
    request is handled, the weapon-capability cast fails or the item's
    can-use query answers true, and broadcasts none otherwise (the item is
    there and answers false); it never faults. *)
Theorem C1_trigger_response_iff_allowed (script : list (World * Op)) (s0 : Actor) :
  let reqs := filter is_trigger_request (run script s0) in
  map responses_sent reqs
    = map (fun st => if no_item_or_can_use (st_world st) (st_before st)
                     then 1 else 0) reqs
  /\ forallb (fun st => returned (st_outcome st)) reqs = true.
Proof.
  cbv zeta. revert s0.
  induction script as [|[w o] rest IH]; intro s0; [split; reflexivity|].
  cbn [run].
  assert (Htail :
    let tl := filter is_trigger_request
                (match exec o w s0 with
                 | Returned _ s' _ => run rest s'
                 | Crashed _ _ => []
                 end) in
    map responses_sent tl
      = map (fun st => if no_item_or_can_use (st_world st) (st_before st)
                       then 1 else 0) tl
    /\ forallb (fun st => returned (st_outcome st)) tl = true).
  { cbv zeta. destruct (exec o w s0); [apply IH | split; reflexivity]. }
  cbv zeta in Htail. destruct Htail as [Hmap Hret].
  destruct o; cbn [filter is_trigger_request st_op]; try (split; assumption).
  cbn [map forallb st_outcome]. split.
  - rewrite Hmap. f_equal.
    unfold responses_sent. cbn [st_outcome st_world st_before exec].
    apply trigger_request_responses.
  - cbn [exec] in *. rewrite Hret.
    rewrite ReqPressTrigger_Implementation_outcome. reflexivity.
Qed.

(** ** The ragdoll flag *)

Lemma ResPressC_Implementation_outcome (w : World) (s : Actor) :
  ResPressC_Implementation w s =
    if IsRagdoll s
    then Returned tt (set_IsRagdoll false s)
           [Mesh_SetSimulatePhysics false;
            Mesh_AttachToRoot_KeepRelativeTransform;
            Mesh_SetRelativeLocationAndRotation
              (mkFVector 0 0 (-97)) (mkFRotator 0 270 0)]
    else Returned tt (set_IsRagdoll true s) [Mesh_SetSimulatePhysics true].
Proof.
  unfold ResPressC_Implementation, DoGetup, DoRagdoll. unfold_monad.
  destruct (IsRagdoll s); reflexivity.
Qed.

(** C2, as stated, fails: a health notification with no health left sets
    the flag of a standing character, and it is not a ToggleRagdoll
    action. *)
Lemma C2_health_update_sets_flag :
  toggle_ragdoll_action (op_OnUpdateHp 0 100) = false
  /\ IsRagdoll AShootingGameCharacter = false
  /\ exec (op_OnUpdateHp 0 100) empty_world AShootingGameCharacter
     = Returned tt (set_IsRagdoll true AShootingGameCharacter)
         [AddOnScreenDebugMessage (txt_OnUpdateHp 0);
          Mesh_SetSimulatePhysics true]
  /\ ~ (forall o w s s' l,
          exec o w s = Returned tt s' l ->
          IsRagdoll s' <> IsRagdoll s -> toggle_ragdoll_action o = true).
Proof.
  split; [reflexivity|]. split; [reflexivity|]. split; [reflexivity|].
  intro H.
  specialize (H (op_OnUpdateHp 0 100) empty_world AShootingGameCharacter
                _ _ eq_refl).
  cbn in H. discriminate H. discriminate.
Qed.

(** C2, amended.  Whenever an operation of the character returns with the
    ragdoll flag changed, the operation is one that reaches [DoRagdoll] or
    [DoGetup] (the ToggleRagdoll response handler, the two actions
    themselves, a health notification with no health left, or the binding
    of a player state that has none left) and the physics of the mesh was
    switched to the new value of the flag; no other operation changes
    it. *)
Theorem C2_flag_changes_only_by_ragdoll_or_getup
  (o : Op) (w : World) (s s' : Actor) (l : list Event) :
  exec o w s = Returned tt s' l ->
  IsRagdoll s' <> IsRagdoll s ->
  reaches_ragdoll_action w o = true
  /\ filter is_SetSimulatePhysics l = [Mesh_SetSimulatePhysics (IsRagdoll s')].
Proof.
  intros Hexec Hchg.
  destruct o; unfold_members; unfold_monad;
    cbv [reaches_ragdoll_action binds_at_zero_hp
         IsValid_playerstate IsValid_controller] in *;
    revert Hexec; split_branches; intro Hexec;
    try discriminate Hexec;
    injection Hexec as <- <-;
    try (exfalso; apply Hchg; reflexivity);
    try (cbn in *; split; reflexivity);
    try (cbn in *; congruence).
Qed.

Lemma C2_flag_changes_only_by_ragdoll_or_getup_witness :
  exec op_ResPressC_Implementation empty_world AShootingGameCharacter
    = Returned tt (set_IsRagdoll true AShootingGameCharacter)
        [Mesh_SetSimulatePhysics true]
  /\ IsRagdoll (set_IsRagdoll true AShootingGameCharacter)
     <> IsRagdoll AShootingGameCharacter
  /\ reaches_ragdoll_action empty_world op_ResPressC_Implementation = true
  /\ filter is_SetSimulatePhysics [Mesh_SetSimulatePhysics true]
     = [Mesh_SetSimulatePhysics
          (IsRagdoll (set_IsRagdoll true AShootingGameCharacter))].
Proof.
  split; [reflexivity|]. split; [simpl; discriminate|].
  apply (C2_flag_changes_only_by_ragdoll_or_getup
           op_ResPressC_Implementation empty_world AShootingGameCharacter
           (set_IsRagdoll true AShootingGameCharacter)
           [Mesh_SetSimulatePhysics true]);
    [reflexivity | simpl; discriminate].
Defined.

(** C4.  Two ToggleRagdoll responses handled one after the other, whatever
    the engine objects are at each, both return and leave the ragdoll flag,
    and indeed the whole character, as it was. *)
Theorem C4_toggle_twice_restores_flag (w1 w2 : World) (s : Actor) :
  exists s1 l1 s2 l2,
    ResPressC_Implementation w1 s = Returned tt s1 l1
    /\ ResPressC_Implementation w2 s1 = Returned tt s2 l2
    /\ IsRagdoll s1 = negb (IsRagdoll s)
    /\ IsRagdoll s2 = IsRagdoll s
    /\ s2 = s.
Proof.
  rewrite ResPressC_Implementation_outcome.
  destruct s as [tr lr ew cp rag]; destruct rag; cbn [IsRagdoll];
    eexists; eexists; eexists; eexists;
    (split; [reflexivity|]);
    rewrite ResPressC_Implementation_outcome; cbn;
    (split; [reflexivity|]); repeat split.
Qed.

(** C5.  The ToggleRagdoll response handler, on a ragdolled character,
    clears the flag, switches the physics of the mesh off, attaches the
    mesh to the root and places it at location (0, 0, -97) with pitch 0,
    yaw 270, roll 0; on a standing character it sets the flag and switches
    the physics on.  Nothing else is called and nothing else of the
    character changes. *)
Theorem C5_toggle_response_effects (w : World) (s : Actor) :
  ResPressC_Implementation w s =
    if IsRagdoll s
    then Returned tt
           {| BaseTurnRate := BaseTurnRate s;
              BaseLookUpRate := BaseLookUpRate s;
              EquipWeapon := EquipWeapon s;
              ControlPitch := ControlPitch s;
              IsRagdoll := false |}
           [Mesh_SetSimulatePhysics false;
            Mesh_AttachToRoot_KeepRelativeTransform;
            Mesh_SetRelativeLocationAndRotation
              {| vX := 0; vY := 0; vZ := -97 |}
              {| Pitch := 0; Yaw := 270; Roll := 0 |}]
    else Returned tt
           {| BaseTurnRate := BaseTurnRate s;
              BaseLookUpRate := BaseLookUpRate s;
              EquipWeapon := EquipWeapon s;
              ControlPitch := ControlPitch s;
              IsRagdoll := true |}
           [Mesh_SetSimulatePhysics true].
Proof.
  rewrite ResPressC_Implementation_outcome. reflexivity.
Qed.

(** ** Calls on the equipped item *)

Lemma ResPressTrigger_Implementation_outcome (w : World) (s : Actor) :
  ResPressTrigger_Implementation w s =
    Returned tt s
      match Cast_IWeaponInterface w (EquipWeapon s) with
      | Some item => [Execute_PressTrigger item]
      | None => []
      end.
Proof.
  unfold ResPressTrigger_Implementation. unfold_monad.
  destruct (Cast_IWeaponInterface w (EquipWeapon s)); reflexivity.
Qed.

Lemma ResPressReload_Implementation_outcome (w : World) (s : Actor) :
  ResPressReload_Implementation w s =
    Returned tt s
      match Cast_IWeaponInterface w (EquipWeapon s) with
      | Some item => [Execute_PressReload item]
      | None => []
      end.
Proof.
  unfold ResPressReload_Implementation. unfold_monad.
  destruct (Cast_IWeaponInterface w (EquipWeapon s)); reflexivity.
Qed.

Lemma OnNotifyShoot_outcome (w : World) (s : Actor) :
  OnNotifyShoot w s =
    Returned tt s
      match Cast_IWeaponInterface w (EquipWeapon s) with
      | Some item => [Execute_NotifyShoot item]
      | None => []
      end.
Proof.
  unfold OnNotifyShoot. unfold_monad.
  destruct (Cast_IWeaponInterface w (EquipWeapon s)); reflexivity.
Qed.

Lemma Cast_IWeaponInterface_Some (w : World) (p : Ptr) (item : ObjId) :
  p = Some item ->
  implementsWeaponInterface (objects w item) = true ->
  Cast_IWeaponInterface w p = Some item.
Proof. intros -> H. unfold Cast_IWeaponInterface. rewrite H. reflexivity. Qed.

(** C6.  With an item that has the weapon capability in the slot as the
    response is handled, the Trigger response handler makes exactly one
    call, the trigger call on that item, and the Reload response handler
    exactly one call, the reload call on that item.  The handlers read the
    slot as it is now: the character [s] is any character whose slot holds
    [item], whatever the slot held when the request was issued. *)
Theorem C6_response_calls_current_item
  (w : World) (s : Actor) (item : ObjId) :
  EquipWeapon s = Some item ->
  implementsWeaponInterface (objects w item) = true ->
  ResPressTrigger_Implementation w s = Returned tt s [Execute_PressTrigger item]
  /\ ResPressReload_Implementation w s = Returned tt s [Execute_PressReload item].
Proof.
  intros Hslot Hcap.
  rewrite ResPressTrigger_Implementation_outcome,
          ResPressReload_Implementation_outcome.
  rewrite (Cast_IWeaponInterface_Some w _ item Hslot Hcap). split; reflexivity.
Qed.

Lemma C6_response_calls_current_item_witness :
  EquipWeapon (set_EquipWeapon (Some rifle) AShootingGameCharacter) = Some rifle
  /\ implementsWeaponInterface (objects (rifle_world false) rifle) = true
  /\ ResPressTrigger_Implementation (rifle_world false)
       (set_EquipWeapon (Some rifle) AShootingGameCharacter)
     = Returned tt (set_EquipWeapon (Some rifle) AShootingGameCharacter)
         [Execute_PressTrigger rifle]
  /\ ResPressReload_Implementation (rifle_world false)
       (set_EquipWeapon (Some rifle) AShootingGameCharacter)
     = Returned tt (set_EquipWeapon (Some rifle) AShootingGameCharacter)
         [Execute_PressReload rifle].
Proof.
  split; [reflexivity|]. split; [reflexivity|].
  apply (C6_response_calls_current_item (rifle_world false)
           (set_EquipWeapon (Some rifle) AShootingGameCharacter) rifle);
    reflexivity.
Defined.

Lemma SetEquipWeapon_Some_actor (w : World) (s : Actor) (item : ObjId) :
  exists l, SetEquipWeapon (Some item) w s
            = Returned (Some item) (set_EquipWeapon (Some item) s) l.
Proof.
  unfold SetEquipWeapon, TestSetOwnerWeapon. unfold_monad.
  unfold IsValid_controller.
  destruct (GetController w) as [c|]; [destruct (ctrl_IsValid c)|];
    cbn [EquipWeapon set_EquipWeapon];
    try (destruct (Cast_AWeapon w (Some item))); eexists; reflexivity.
Qed.

(** X17.  The ordering case of the Trigger response: the request is handled
    with some item in the slot, the slot is then given [new], and the
    response is handled after that; the one call of the response handler is
    the trigger call on [new]. *)
Lemma trigger_response_after_reequip
  (w1 w2 w3 : World) (s : Actor) (new : ObjId) :
  implementsWeaponInterface (objects w3 new) = true ->
  map (fun st => log_of (st_outcome st))
    (skipn 2 (run [(w1, op_ReqPressTrigger_Implementation);
                   (w2, op_SetEquipWeapon (Some new));
                   (w3, op_ResPressTrigger_Implementation)] s))
  = [[Execute_PressTrigger new]].
Proof.
  intro Hcap. cbn [run exec].
  rewrite ReqPressTrigger_Implementation_outcome.
  unfold discard, bind.
  destruct (SetEquipWeapon_Some_actor w2 s new) as [l ->].
  cbn [ret skipn map st_outcome].
  rewrite ResPressTrigger_Implementation_outcome.
  cbn [EquipWeapon set_EquipWeapon log_of map].
  rewrite (Cast_IWeaponInterface_Some w3 _ new eq_refl Hcap). reflexivity.
Qed.

(** The call sites of the trigger, reload, can-use and shoot-notify
    capabilities test the cast first: with an empty slot they return
    without a call on the item. *)
Lemma guarded_sites_with_empty_slot (w : World) (s : Actor) :
  EquipWeapon s = None ->
  OnNotifyShoot w s = Returned tt s []
  /\ ResPressTrigger_Implementation w s = Returned tt s []
  /\ ResPressReload_Implementation w s = Returned tt s []
  /\ ReqPressTrigger_Implementation w s
     = Returned tt s [Multicast rpc_ResPressTrigger].
Proof.
  intro H.
  rewrite OnNotifyShoot_outcome, ResPressTrigger_Implementation_outcome,
    ResPressReload_Implementation_outcome,
    ReqPressTrigger_Implementation_outcome, H.
  repeat split.
Qed.

(** C3.  The set-owner call site is not guarded: [TestSetOwnerWeapon] tests
    the controller only, so equipping a null item while the controller is
    valid dereferences the null item right after the debug message. *)
Theorem C3_set_owner_dereferences_null_item
  (w : World) (s : Actor) (c : ControllerInfo) :
  GetController w = Some c ->
  ctrl_IsValid c = true ->
  SetEquipWeapon None w s
  = Crashed NullDereference
      [AddOnScreenDebugMessage (txt_SetOwnerComplate (ctrl_id c))].
Proof.
  intros Hc Hv.
  unfold SetEquipWeapon, TestSetOwnerWeapon. unfold_monad.
  unfold IsValid_controller. rewrite Hc, Hv. reflexivity.
Qed.

Lemma C3_set_owner_dereferences_null_item_witness :
  GetController (rifle_world true) = Some (mkControllerInfo 1 true ZeroRotator)
  /\ ctrl_IsValid (mkControllerInfo 1 true ZeroRotator) = true
  /\ SetEquipWeapon None (rifle_world true) AShootingGameCharacter
     = Crashed NullDereference
         [AddOnScreenDebugMessage (txt_SetOwnerComplate 1)].
Proof.
  split; [reflexivity|]. split; [reflexivity|].
  apply (C3_set_owner_dereferences_null_item (rifle_world true)
           AShootingGameCharacter (mkControllerInfo 1 true ZeroRotator));
    reflexivity.
Defined.

(** ** Damage *)

Lemma TakeDamage_outcome
  (DamageAmount : float) (EventInstigator DamageCauser : Ptr)
  (w : World) (s : Actor) :
  TakeDamage DamageAmount EventInstigator DamageCauser w s =
    match EventInstigator with
    | None => Crashed NullDereference []
    | Some name =>
        Returned 0%Q s
          (AddOnScreenDebugMessage (txt_TakeDamage DamageAmount name) ::
           match Cast_AShootingPlayerState (GetPlayerState w) with
           | Some p => [PlayerState_AddDamage (ps_id p) DamageAmount]
           | None => []
           end)
    end.
Proof.
  unfold TakeDamage. unfold_monad.
  destruct EventInstigator; [|reflexivity].
  destruct (Cast_AShootingPlayerState (GetPlayerState w)); reflexivity.
Qed.




(** C10.  [TakeDamage] dereferences its instigator first: it stops at a
    null dereference, before any call, exactly when the instigator is
    null; with an instigator it returns. *)
Theorem C10_TakeDamage_requires_instigator
  (DamageAmount : float) (EventInstigator DamageCauser : Ptr)
  (w : World) (s : Actor) :
  (EventInstigator = None <->
   TakeDamage DamageAmount EventInstigator DamageCauser w s
   = Crashed NullDereference [])
  /\ (EventInstigator <> None <->
      returned (TakeDamage DamageAmount EventInstigator DamageCauser w s)
      = true).
Proof.
  rewrite TakeDamage_outcome.
  destruct EventInstigator; cbn [returned]; repeat split;
    intros; try congruence; try discriminate.
Qed.

(** ** Control pitch *)

Lemma Tick_outcome (DeltaTime : float) (w : World) (s : Actor) :
  Tick DeltaTime w s =
    Returned tt
      (if HasAuthority w
       then set_ControlPitch (Pitch (GetControlRotation w)) s else s)
      [Super_Tick DeltaTime].
Proof.
  unfold Tick. unfold_monad. destruct (HasAuthority w); reflexivity.
Qed.

(** C8.  After any operation of the character that returns, the control
    pitch is the pitch of the control rotation if the operation is the tick
    and the node has authority, and is what it was before in every other
    case: any other operation, or the tick without authority. *)
Theorem C8_control_pitch_written_by_authority_tick_only
  (o : Op) (w : World) (s s' : Actor) (l : list Event) :
  exec o w s = Returned tt s' l ->
  ControlPitch s' =
    if is_Tick o && HasAuthority w
    then Pitch (GetControlRotation w)
    else ControlPitch s.
Proof.
  intro Hexec.
  destruct o; cbn [is_Tick andb];
    try (cbn [exec] in Hexec; rewrite Tick_outcome in Hexec;
         injection Hexec as <- _; destruct (HasAuthority w); reflexivity);
    unfold_members; unfold_monad;
    cbv [IsValid_playerstate IsValid_controller] in *;
    revert Hexec; split_branches; intro Hexec;
    try discriminate Hexec;
    injection Hexec as <- _; reflexivity.
Qed.

Lemma C8_control_pitch_written_by_authority_tick_only_witness :
  exec (op_Tick 0) (looking_up_world true) AShootingGameCharacter
    = Returned tt (set_ControlPitch 30 AShootingGameCharacter) [Super_Tick 0]
  /\ ControlPitch (set_ControlPitch 30 AShootingGameCharacter) = 30%Q.
Proof.
  split; [reflexivity|].
  apply (C8_control_pitch_written_by_authority_tick_only
           (op_Tick 0) (looking_up_world true) AShootingGameCharacter
           (set_ControlPitch 30 AShootingGameCharacter) [Super_Tick 0]).
  reflexivity.
Defined.

(** ** Deferred binding *)

Lemma retry_unavailable (b : Binding) (w : World) (s : Actor) :
  target_available b w = false -> slot_holds b s ->
  exec (retry_op b) w s = Returned tt s [retry_of b].
Proof.
  intros Hna _. destruct b; cbn [retry_op exec target_available] in *;
    [unfold TestSetOwnerWeapon | unfold BindPlayerState];
    unfold_monad; rewrite Hna; reflexivity.
Qed.

Lemma retry_available (b : Binding) (w : World) (s : Actor) :
  target_available b w = true -> slot_holds b s ->
  exists last s',
    exec (retry_op b) w s = Returned tt s' last /\ bound_once b last.
Proof.
  intros Hav Hslot. unfold bound_once.
  destruct b as [item|]; cbn [retry_op exec target_available slot_holds] in *.
  - unfold TestSetOwnerWeapon. unfold_monad. rewrite Hav.
    unfold IsValid_controller in Hav.
    destruct (GetController w) as [c|]; [|discriminate].
    cbv beta iota. rewrite Hslot.
    destruct (Cast_AWeapon w (Some item)); do 2 eexists;
      (split; [reflexivity|]); cbn; rewrite Nat.eqb_refl; split; reflexivity.
  - unfold BindPlayerState, OnUpdateHp, OnUpdateHp_Implementation, DoRagdoll.
    unfold_monad. rewrite Hav. unfold IsValid_playerstate in Hav.
    destruct (Cast_AShootingPlayerState (GetPlayerState w)) as [p|];
      [|discriminate].
    destruct (Qle_bool (GetCurHp p) 0); do 2 eexists;
      (split; [reflexivity|]); cbn; split; reflexivity.
Qed.

Lemma first_attempt_unavailable (b : Binding) (w : World) (s : Actor) :
  target_available b w = false ->
  exists l s1,
    exec (first_attempt b) w s = Returned tt s1 l
    /\ slot_holds b s1 /\ rescheduled b l.
Proof.
  intro Hna. unfold rescheduled.
  destruct b as [item|]; cbn [first_attempt exec target_available] in *.
  - unfold SetEquipWeapon, TestSetOwnerWeapon. unfold_monad. rewrite Hna.
    do 2 eexists. split; [reflexivity|]. repeat split.
  - unfold BeginPlay, BindPlayerState. unfold_monad. rewrite Hna.
    do 2 eexists. split; [reflexivity|]. repeat split.
Qed.

Lemma first_attempt_available (b : Binding) (w : World) (s : Actor) :
  target_available b w = true ->
  exists last s',
    exec (first_attempt b) w s = Returned tt s' last /\ bound_once b last.
Proof.
  intro Hav. unfold bound_once.
  destruct b as [item|]; cbn [first_attempt exec target_available] in *.
  - unfold SetEquipWeapon, TestSetOwnerWeapon. unfold_monad. rewrite Hav.
    unfold IsValid_controller in Hav.
    destruct (GetController w) as [c|]; [|discriminate].
    cbv beta iota. cbn [EquipWeapon set_EquipWeapon].
    destruct (Cast_AWeapon w (Some item)); do 2 eexists;
      (split; [reflexivity|]); cbn; rewrite Nat.eqb_refl; split; reflexivity.
  - unfold BeginPlay, BindPlayerState, OnUpdateHp, OnUpdateHp_Implementation,
      DoRagdoll.
    unfold_monad. rewrite Hav. unfold IsValid_playerstate in Hav.
    destruct (Cast_AShootingPlayerState (GetPlayerState w)) as [p|];
      [|discriminate].
    destruct (Qle_bool (GetCurHp p) 0); do 2 eexists;
      (split; [reflexivity|]); cbn; split; reflexivity.
Qed.

Lemma callback_of_retry (b : Binding) :
  exists h cb r lp,
    retry_of b = SetTimer h cb r lp /\ callback_op cb = retry_op b.
Proof. destruct b; do 4 eexists; split; reflexivity. Qed.

(** The retries proper: from a check made by the timer, with the target
    missing at the next [N] checks and there at the one after. *)
Lemma retries_until_available (b : Binding) (N : nat) :
  forall (fuel : nat) (env : nat -> World) (k : nat) (s : Actor),
    slot_holds b s ->
    (forall j, j < N -> target_available b (env (k + j)) = false) ->
    target_available b (env (k + N)) = true ->
    N < fuel ->
    exists last s',
      checks fuel env k (retry_op b) s
        = Settled (repeat [retry_of b] N ++ [last]) s'
      /\ bound_once b last.
Proof.
  induction N as [|N IH]; intros fuel env k s Hslot Hna Hav Hfuel;
    (destruct fuel as [|fuel]; [lia|]); cbn [checks].
  - rewrite Nat.add_0_r in Hav.
    destruct (retry_available b (env k) s Hav Hslot)
      as (last & s' & -> & Hb).
    exists last, s'. split; [|exact Hb].
    destruct Hb as [-> _]. reflexivity.
  - assert (H0 : target_available b (env k) = false)
      by (rewrite <- (Nat.add_0_r k); apply Hna; lia).
    rewrite (retry_unavailable b (env k) s H0 Hslot).
    destruct (callback_of_retry b) as (h & cb & r & lp & Hev & Hcb).
    cbn [filter]. rewrite Hev. cbn [is_SetTimer]. rewrite Hcb.
    destruct (IH fuel env (S k) s Hslot) as (last & s' & -> & Hb).
    + intros j Hj. replace (S k + j) with (k + S j) by lia. apply Hna. lia.
    + replace (S k + N) with (k + S N) by lia. exact Hav.
    + lia.
    + exists last, s'. split; [rewrite <- Hev; reflexivity | exact Hb].
Qed.

Lemma rescheduled_retry (b : Binding) : rescheduled b [retry_of b].
Proof. destruct b; split; reflexivity. Qed.

Lemma no_bind_in_rescheduled (b : Binding) (ls : list (list Event)) :
  Forall (rescheduled b) ls ->
  filter (is_bind_action b) (List.concat ls) = [].
Proof.
  induction 1 as [|l ls [_ Hl] _ IH]; [reflexivity|].
  cbn [List.concat]. rewrite filter_app, Hl, IH. reflexivity.
Qed.

(** C9.  For each of the two bindings, started by its first attempt: if
    the target is missing at checks 0 to N-1 and there at check N, then,
    looking at more than N checks, the chain settles after exactly N + 1
    checks; each of the first N made no bind action and set exactly one
    timer, the retry of this binding, one-shot at a tenth of a second; the
    last one made the bind action once and set no timer; so the bind action
    was made once in all. *)
Theorem C9_bind_once_at_check_N
  (b : Binding) (N : nat) (env : nat -> World) (s : Actor) (fuel : nat) :
  (forall k, k < N -> target_available b (env k) = false) ->
  target_available b (env N) = true ->
  N < fuel ->
  exists before last s',
    checks fuel env 0 (first_attempt b) s = Settled (before ++ [last]) s'
    /\ List.length before = N
    /\ Forall (rescheduled b) before
    /\ bound_once b last
    /\ List.length (filter (is_bind_action b) (List.concat (before ++ [last]))) = 1.
Proof.
  intros Hna Hav Hfuel.
  assert (Hgoal : exists before last s',
    checks fuel env 0 (first_attempt b) s = Settled (before ++ [last]) s'
    /\ List.length before = N
    /\ Forall (rescheduled b) before
    /\ bound_once b last).
  { destruct fuel as [|fuel]; [lia|]. cbn [checks].
    destruct N as [|N].
    - destruct (first_attempt_available b (env 0) s Hav)
        as (last & s' & -> & Hb).
      exists [], last, s'. destruct Hb as [Ht Hc]. rewrite Ht.
      repeat split; auto.
    - destruct (first_attempt_unavailable b (env 0) s (Hna 0 ltac:(lia)))
        as (l & s1 & -> & Hslot & Hr).
      destruct Hr as [Ht Hnb]. rewrite Ht.
      destruct (callback_of_retry b) as (h & cb & r & lp & Hev & Hcb).
      rewrite Hev, Hcb.
      destruct (retries_until_available b N fuel env 1 s1 Hslot)
        as (last & s' & -> & Hb).
      + intros j Hj. apply Hna. lia.
      + exact Hav.
      + lia.
      + exists (l :: repeat [retry_of b] N), last, s'.
        cbn [after_check app List.length]. rewrite repeat_length.
        repeat split; auto.
        * constructor; [split; [exact Ht | exact Hnb]|].
          apply Forall_forall. intros x Hx.
          apply repeat_spec in Hx. subst x. apply rescheduled_retry.
        * apply Hb.
        * apply Hb. }
  destruct Hgoal as (before & last & s' & Hrun & Hlen & Hres & Hb).
  exists before, last, s'. repeat split; try assumption; try apply Hb.
  rewrite concat_app, filter_app, (no_bind_in_rescheduled b before Hres).
  cbn [List.concat app]. rewrite app_nil_r. apply Hb.
Qed.

Lemma C9_bind_once_at_check_N_witness :
  (forall k, k < 2 -> target_available PlayerStateHealth (arriving_late k) = false)
  /\ target_available PlayerStateHealth (arriving_late 2) = true
  /\ 2 < 5
  /\ exists before last s',
       checks 5 arriving_late 0 (first_attempt PlayerStateHealth)
         AShootingGameCharacter = Settled (before ++ [last]) s'
       /\ List.length before = 2
       /\ Forall (rescheduled PlayerStateHealth) before
       /\ bound_once PlayerStateHealth last
       /\ List.length (filter (is_bind_action PlayerStateHealth)
                         (List.concat (before ++ [last]))) = 1.
Proof.
  assert (Hna : forall k, k < 2 ->
            target_available PlayerStateHealth (arriving_late k) = false).
  { intros k Hk. destruct k as [|[|k]]; [reflexivity | reflexivity | lia]. }
  split; [exact Hna|]. split; [reflexivity|]. split; [lia|].
  apply (C9_bind_once_at_check_N PlayerStateHealth 2 arriving_late
           AShootingGameCharacter 5 Hna); [reflexivity | lia].
Defined.

(** ** The functions on concrete inputs *)

Example health_binding_after_two_retries :
  checks 5 arriving_late 0 op_BeginPlay AShootingGameCharacter
  = Settled
      [[Super_BeginPlay;
        SetTimer th_BindPlayerState cb_BindPlayerState (1 # 10)%Q false];
       [SetTimer th_BindPlayerState cb_BindPlayerState (1 # 10)%Q false];
       [PlayerState_AddUFunction 3 "OnUpdateHp";
        AddOnScreenDebugMessage (txt_OnUpdateHp 100)]]
      AShootingGameCharacter.
Proof. reflexivity. Qed.

Example owner_binding_after_two_retries :
  checks 5 arriving_late 0 (op_SetEquipWeapon (Some rifle))
    AShootingGameCharacter
  = Settled
      [[SetTimer th_SetOwnerWeapon cb_TestSetOwnerWeapon (1 # 10)%Q false];
       [SetTimer th_SetOwnerWeapon cb_TestSetOwnerWeapon (1 # 10)%Q false];
       [AddOnScreenDebugMessage (txt_SetOwnerComplate 1);
        Item_SetOwner rifle 1;
        Weapon_set_OwnChar rifle;
        Weapon_UpdateAmmoToHud rifle]]
      (set_EquipWeapon (Some rifle) AShootingGameCharacter).
Proof. reflexivity. Qed.

Example never_available_keeps_retrying :
  checks 3 (fun _ => empty_world) 0 op_BeginPlay AShootingGameCharacter
  = Pending
      [[Super_BeginPlay;
        SetTimer th_BindPlayerState cb_BindPlayerState (1 # 10)%Q false];
       [SetTimer th_BindPlayerState cb_BindPlayerState (1 # 10)%Q false];
       [SetTimer th_BindPlayerState cb_BindPlayerState (1 # 10)%Q false]].
Proof. reflexivity. Qed.

Example trigger_request_with_empty_slot :
  ReqPressTrigger_Implementation empty_world AShootingGameCharacter
  = Returned tt AShootingGameCharacter [Multicast rpc_ResPressTrigger].
Proof. reflexivity. Qed.

Example trigger_request_item_cannot_be_used :
  ReqPressTrigger_Implementation (rifle_world false)
    (set_EquipWeapon (Some rifle) AShootingGameCharacter)
  = Returned tt (set_EquipWeapon (Some rifle) AShootingGameCharacter)
      [Execute_IsCanUse rifle].
Proof. reflexivity. Qed.

Example trigger_request_item_can_be_used :
  ReqPressTrigger_Implementation (rifle_world true)
    (set_EquipWeapon (Some rifle) AShootingGameCharacter)
  = Returned tt (set_EquipWeapon (Some rifle) AShootingGameCharacter)
      [Execute_IsCanUse rifle; Multicast rpc_ResPressTrigger].
Proof. reflexivity. Qed.

Example toggle_from_standing :
  ResPressC_Implementation empty_world AShootingGameCharacter
  = Returned tt (set_IsRagdoll true AShootingGameCharacter)
      [Mesh_SetSimulatePhysics true].
Proof. reflexivity. Qed.

Example damage_without_instigator :
  TakeDamage 25 None None (rifle_world true) AShootingGameCharacter
  = Crashed NullDereference [].
Proof. reflexivity. Qed.

Example tick_without_authority :
  Tick 0 (looking_up_world false) AShootingGameCharacter
  = Returned tt AShootingGameCharacter [Super_Tick 0].
Proof. reflexivity. Qed.

Example three_requests :
  map responses_sent
    (run [(rifle_world true, op_ReqPressTrigger_Implementation);
          (rifle_world false, op_ReqPressTrigger_Implementation);
          (empty_world, op_ReqPressTrigger_Implementation)]
       (set_EquipWeapon (Some rifle) AShootingGameCharacter))
  = [1; 0; 1].
Proof. reflexivity. Qed.

Example request_then_delivered_response :
  let s := set_EquipWeapon (Some rifle) AShootingGameCharacter in
  map (fun r => exec (deliver r) (rifle_world true) s)
    (broadcasts (log_of (exec (deliver rpc_ReqPressTrigger) (rifle_world true) s)))
  = [Returned tt s [Execute_PressTrigger rifle]].
Proof. reflexivity. Qed.

Example toggle_request_then_delivered_response :
  map (fun r => exec (deliver r) empty_world AShootingGameCharacter)
    (broadcasts (log_of (exec op_PressTestKey empty_world AShootingGameCharacter)))
  = []
  /\ map (fun r => exec (deliver r) empty_world AShootingGameCharacter)
       (broadcasts (log_of (exec (deliver rpc_ReqPressC) empty_world
                              AShootingGameCharacter)))
     = [Returned tt (set_IsRagdoll true AShootingGameCharacter)
          [Mesh_SetSimulatePhysics true]].
Proof. split; reflexivity. Qed.

(** ** Faults *)

(** X1.  An operation of the character stops at a fault on exactly these
    inputs: [TakeDamage] with a null instigator,
    [SetupPlayerInputComponent] with a null component, [SetEquipWeapon]
    with a null item while the controller is valid, and
    [TestSetOwnerWeapon] with an empty slot while the controller is valid.
    On every other input every operation returns. *)
Theorem exec_returns_unless_faults (o : Op) (w : World) (s : Actor) :
  returned (exec o w s) = negb (faults w s o).
Proof.
  destruct o; unfold_members; unfold_monad;
    cbv [faults IsValid_playerstate IsValid_controller];
    split_branches; try reflexivity; try discriminate;
    cbn in *; congruence.
Qed.

(** ** What a whole script leaves of the character *)

Lemma exec_all_cons_inv
  (w : World) (o : Op) (rest : list (World * Op)) (s s' : Actor)
  (l : list Event) :
  exec_all ((w, o) :: rest) s = Returned tt s' l ->
  exists s1 l1 l2,
    exec o w s = Returned tt s1 l1
    /\ exec_all rest s1 = Returned tt s' l2
    /\ l = l1 ++ l2.
Proof.
  cbn [exec_all].
  destruct (exec o w s) as [[] s1 l1|]; [|discriminate].
  destruct (exec_all rest s1) as [[] s2 l2|] eqn:Hrest; [|discriminate].
  intro H. injection H as <- <-. exists s1, l1, l2.
  split; [reflexivity|]. split; [exact Hrest | reflexivity].
Qed.

Lemma exec_EquipWeapon (o : Op) (w : World) (s s' : Actor) (l : list Event) :
  exec o w s = Returned tt s' l ->
  EquipWeapon s' =
    match o with op_SetEquipWeapon p => p | _ => EquipWeapon s end.
Proof.
  intro Hexec.
  destruct o; unfold_members; unfold_monad;
    cbv [IsValid_playerstate IsValid_controller] in *;
    revert Hexec; split_branches; intro Hexec;
    try discriminate Hexec;
    injection Hexec as <- _; cbn in *; congruence.
Qed.

Lemma exec_rates (o : Op) (w : World) (s s' : Actor) (l : list Event) :
  exec o w s = Returned tt s' l ->
  BaseTurnRate s' = BaseTurnRate s /\ BaseLookUpRate s' = BaseLookUpRate s.
Proof.
  intro Hexec.
  destruct o; unfold_members; unfold_monad;
    cbv [IsValid_playerstate IsValid_controller] in *;
    revert Hexec; split_branches; intro Hexec;
    try discriminate Hexec;
    injection Hexec as <- _; split; reflexivity.
Qed.

Lemma exec_read_only (o : Op) (w : World) (s s' : Actor) (l : list Event) :
  may_change_character o = false ->
  exec o w s = Returned tt s' l ->
  s' = s.
Proof.
  intros Hro Hexec.
  destruct o; try discriminate Hro; unfold_members; unfold_monad;
    cbv [IsValid_playerstate IsValid_controller] in *;
    revert Hexec; split_branches; intro Hexec;
    try discriminate Hexec;
    injection Hexec as <- _; reflexivity.
Qed.

Lemma exec_physics (o : Op) (w : World) (s s' : Actor) (l : list Event) :
  exec o w s = Returned tt s' l ->
  physics_after (IsRagdoll s) l = IsRagdoll s'.
Proof.
  intro Hexec.
  destruct o; unfold_members; unfold_monad;
    cbv [IsValid_playerstate IsValid_controller] in *;
    revert Hexec; split_branches; intro Hexec;
    try discriminate Hexec;
    injection Hexec as <- <-; reflexivity.
Qed.

Lemma exec_stays_down (o : Op) (w : World) (s s' : Actor) (l : list Event) :
  stands_up o = false ->
  IsRagdoll s = true ->
  exec o w s = Returned tt s' l ->
  IsRagdoll s' = true.
Proof.
  intros Hnot Hdown Hexec.
  destruct o; try discriminate Hnot; unfold_members; unfold_monad;
    cbv [IsValid_playerstate IsValid_controller] in *;
    revert Hexec; split_branches; intro Hexec;
    try discriminate Hexec;
    injection Hexec as <- _; cbn; try assumption; reflexivity.
Qed.

Lemma physics_after_app (b : bool) (l1 l2 : list Event) :
  physics_after b (l1 ++ l2) = physics_after (physics_after b l1) l2.
Proof.
  revert b. induction l1 as [|e l1 IH]; intro b; [reflexivity|].
  destruct e; cbn [app physics_after]; apply IH.
Qed.

(** X2.  After any script that runs to its end, the slot holds the argument
    of the last [SetEquipWeapon] of the script, or what it held before the
    script when there is none: no other operation assigns the slot, and
    re-equipping simply overwrites it. *)
Theorem slot_after_script
  (script : list (World * Op)) (s s' : Actor) (l : list Event) :
  exec_all script s = Returned tt s' l ->
  EquipWeapon s' = last_equipped script (EquipWeapon s).
Proof.
  revert s l. induction script as [|[w o] rest IH]; intros s l Hrun.
  - cbn in Hrun. injection Hrun as <- _. reflexivity.
  - apply exec_all_cons_inv in Hrun.
    destruct Hrun as (s1 & l1 & l2 & Hop & Hrest & _).
    rewrite (IH _ _ Hrest). apply exec_EquipWeapon in Hop. rewrite Hop.
    destruct o; reflexivity.
Qed.

(** X3.  No script changes the two turn rates the constructor set; and a
    script made only of operations other than [Tick], [SetEquipWeapon],
    [DoRagdoll], [DoGetup], the ToggleRagdoll response, [OnUpdateHp],
    [BindPlayerState] and [BeginPlay] leaves the whole character as it
    was: input handlers, request handlers, the Trigger and Reload response
    handlers, [OnNotifyShoot], [TakeDamage] and the rest only make calls. *)
Theorem script_frame
  (script : list (World * Op)) (s s' : Actor) (l : list Event) :
  exec_all script s = Returned tt s' l ->
  BaseTurnRate s' = BaseTurnRate s
  /\ BaseLookUpRate s' = BaseLookUpRate s
  /\ (forallb (fun wo => negb (may_change_character (snd wo))) script = true ->
      s' = s).
Proof.
  revert s l. induction script as [|[w o] rest IH]; intros s l Hrun.
  - cbn in Hrun. injection Hrun as <- _. repeat split.
  - apply exec_all_cons_inv in Hrun.
    destruct Hrun as (s1 & l1 & l2 & Hop & Hrest & _).
    destruct (IH _ _ Hrest) as (Ht & Hl & Hro).
    destruct (exec_rates _ _ _ _ _ Hop) as [Ht1 Hl1].
    split; [congruence|]. split; [congruence|].
    cbn [forallb snd]. intro Hall.
    apply andb_prop in Hall. destruct Hall as [Ho Hall].
    apply negb_true_iff in Ho.
    rewrite (Hro Hall). exact (exec_read_only _ _ _ _ _ Ho Hop).
Qed.

(** X4.  A ragdolled character stays ragdolled through any script that
    contains neither [DoGetup] nor a ToggleRagdoll response: health
    notifications, whatever health they report, and the binding of the
    player state never stand it up again. *)
Theorem ragdolled_until_getup
  (script : list (World * Op)) (s s' : Actor) (l : list Event) :
  forallb (fun wo => negb (stands_up (snd wo))) script = true ->
  IsRagdoll s = true ->
  exec_all script s = Returned tt s' l ->
  IsRagdoll s' = true.
Proof.
  revert s l. induction script as [|[w o] rest IH]; intros s l Hall Hdown Hrun.
  - cbn in Hrun. injection Hrun as <- _. exact Hdown.
  - apply exec_all_cons_inv in Hrun.
    destruct Hrun as (s1 & l1 & l2 & Hop & Hrest & _).
    cbn [forallb snd] in Hall. apply andb_prop in Hall.
    destruct Hall as [Ho Hall]. apply negb_true_iff in Ho.
    apply (IH s1 l2 Hall); [|exact Hrest].
    exact (exec_stays_down _ _ _ _ _ Ho Hdown Hop).
Qed.

(** X5.  Through any script that runs to its end, the physics simulation of
    the mesh, as the calls of the script leave it, is on exactly when the
    ragdoll flag is set, provided the two agreed before the script: every
    assignment of the flag comes with the matching [SetSimulatePhysics]. *)
Theorem physics_follows_flag
  (script : list (World * Op)) (s s' : Actor) (l : list Event) :
  exec_all script s = Returned tt s' l ->
  physics_after (IsRagdoll s) l = IsRagdoll s'.
Proof.
  revert s l. induction script as [|[w o] rest IH]; intros s l Hrun.
  - cbn in Hrun. injection Hrun as <- <-. reflexivity.
  - apply exec_all_cons_inv in Hrun.
    destruct Hrun as (s1 & l1 & l2 & Hop & Hrest & ->).
    rewrite physics_after_app, (exec_physics _ _ _ _ _ Hop).
    exact (IH _ _ Hrest).
Qed.

(** ** Messages *)

(** X6.  Among all the operations, a request message is only ever sent by
    the input handler of its action and a response only ever broadcast by
    the request handler of its action: the response handlers and every
    other operation send nothing, no request is ever broadcast and no
    response is ever sent to the authority. *)
Theorem message_only_from_its_source
  (o : Op) (w : World) (s : Actor) (e : Event) :
  In e (log_of (exec o w s)) ->
  is_message e = true ->
  message_source e = Some o.
Proof.
  intros Hin Hmsg.
  destruct o; unfold_members; unfold_monad;
    cbv [IsValid_playerstate IsValid_controller] in *;
    revert Hin; split_branches; cbn; intro Hin;
    repeat (destruct Hin as [<- | Hin];
            [first [discriminate Hmsg | reflexivity]|]);
    contradiction.
Qed.

Lemma message_only_from_its_source_witness :
  In (Multicast rpc_ResPressTrigger)
    (log_of (exec op_ReqPressTrigger_Implementation empty_world
               AShootingGameCharacter))
  /\ is_message (Multicast rpc_ResPressTrigger) = true
  /\ message_source (Multicast rpc_ResPressTrigger)
     = Some op_ReqPressTrigger_Implementation.
Proof.
  split; [simpl; left; reflexivity|]. split; [reflexivity|].
  apply (message_only_from_its_source op_ReqPressTrigger_Implementation
           empty_world AShootingGameCharacter (Multicast rpc_ResPressTrigger));
    [simpl; left; reflexivity | reflexivity].
Defined.

(** ** The relay, end to end *)

(** X7.  Pressing the trigger on the originating node makes a participant
    handle one Trigger response exactly when, on the authority, the cast of
    the authority's slot fails or its item answers can-use true; the slot
    and the items of the originating node play no part.  The participant
    then makes the trigger call on the item of its own slot, if that item
    has the weapon capability, and no call otherwise. *)
Theorem relay_trigger
  (wo wa wp : World) (so sa sp : Actor) :
  relay op_PressTrigger (wo, so) (wa, sa) (wp, sp) =
    if no_item_or_can_use wa sa
    then [Returned tt sp
            match Cast_IWeaponInterface wp (EquipWeapon sp) with
            | Some item => [Execute_PressTrigger item]
            | None => []
            end]
    else [].
Proof.
  unfold relay. cbn [fst snd exec PressTrigger ReqPressTrigger call log_of
                     requests_sent flat_map deliver app].
  rewrite ReqPressTrigger_Implementation_outcome. unfold no_item_or_can_use.
  rewrite app_nil_r.
  destruct (Cast_IWeaponInterface wa (EquipWeapon sa)) as [item|];
    [destruct (IsCanUse (objects wa item))|];
    cbn [log_of broadcasts map deliver exec];
    try rewrite ResPressTrigger_Implementation_outcome; reflexivity.
Qed.

(** X8.  Pressing reload or the test key always reaches the participant as
    exactly one response, whatever the three nodes hold: the reload
    response makes the reload call on the item of the participant's own
    slot if it has the weapon capability, and the ToggleRagdoll response
    negates the participant's own ragdoll flag. *)
Theorem relay_reload_and_toggle
  (wo wa wp : World) (so sa sp : Actor) :
  relay op_PressReload (wo, so) (wa, sa) (wp, sp) =
    [Returned tt sp
       match Cast_IWeaponInterface wp (EquipWeapon sp) with
       | Some item => [Execute_PressReload item]
       | None => []
       end]
  /\ exists l,
       relay op_PressTestKey (wo, so) (wa, sa) (wp, sp) =
         [Returned tt (set_IsRagdoll (negb (IsRagdoll sp)) sp) l].
Proof.
  split.
  - unfold relay.
    cbn [fst snd exec PressReload ReqPressReload ReqPressReload_Implementation
         ResPressReload call log_of requests_sent broadcasts flat_map map
         deliver app].
    rewrite ResPressReload_Implementation_outcome. reflexivity.
  - unfold relay.
    cbn [fst snd exec ReqPressC_Implementation ResPressC call log_of
         broadcasts deliver].
    change (requests_sent
              (log_of (PressTestKey wo so))) with [rpc_ReqPressC].
    cbn [flat_map map deliver exec ReqPressC_Implementation ResPressC call
         log_of broadcasts app].
    rewrite ResPressC_Implementation_outcome.
    destruct (IsRagdoll sp); eexists; reflexivity.
Qed.

(** ** Repeated toggles *)

Lemma ResPressC_Implementation_negates (w : World) (s : Actor) :
  exists l,
    ResPressC_Implementation w s
    = Returned tt (set_IsRagdoll (negb (IsRagdoll s)) s) l.
Proof.
  rewrite ResPressC_Implementation_outcome.
  destruct (IsRagdoll s); eexists; reflexivity.
Qed.

(** X9.  Any number of ToggleRagdoll responses handled in a row, whatever
    the engine objects at each, run to the end and leave the ragdoll flag
    as it was if their number is even and negated if it is odd; nothing
    else of the character changes. *)
Theorem toggles_leave_parity (ws : list World) (s : Actor) :
  exists l,
    exec_all (map (fun w => (w, op_ResPressC_Implementation)) ws) s
    = Returned tt
        (set_IsRagdoll (xorb (Nat.odd (List.length ws)) (IsRagdoll s)) s) l.
Proof.
  revert s. induction ws as [|w ws IH]; intro s.
  - exists []. destruct s as [a b c d r]. destruct r; reflexivity.
  - cbn [map exec_all exec List.length].
    destruct (ResPressC_Implementation_negates w s) as [l1 ->].
    destruct (IH (set_IsRagdoll (negb (IsRagdoll s)) s)) as [l2 ->].
    exists (l1 ++ l2). f_equal.
    rewrite Nat.odd_succ, <- Nat.negb_odd.
    destruct s as [a b c d r]. cbn.
    destruct (Nat.odd (List.length ws)), r; reflexivity.
Qed.

(** ** Where the calls on the item go *)

Lemma Cast_IWeaponInterface_inv (w : World) (p : Ptr) (item : ObjId) :
  Cast_IWeaponInterface w p = Some item ->
  p = Some item /\ implementsWeaponInterface (objects w item) = true.
Proof.
  unfold Cast_IWeaponInterface. destruct p as [o|]; [|discriminate].
  destruct (implementsWeaponInterface (objects w o)) eqn:H; [|discriminate].
  intro E. injection E as <-. split; [reflexivity | exact H].
Qed.

(** X10.  Whatever operation runs, a call through [IWeaponInterface]
    (can-use, trigger, reload, shoot-notify) is only ever made on the item
    the slot holds as the operation starts, and only if that item has the
    weapon capability: never on a null slot, never on another object. *)
Theorem interface_calls_go_to_equipped_item
  (o : Op) (w : World) (s : Actor) (e : Event) (item : ObjId) :
  In e (log_of (exec o w s)) ->
  interface_call_target e = Some item ->
  EquipWeapon s = Some item
  /\ implementsWeaponInterface (objects w item) = true.
Proof.
  intros Hin Htgt.
  destruct o; unfold_members; unfold_monad;
    cbv [IsValid_playerstate IsValid_controller] in *;
    revert Hin; split_branches; cbn; intro Hin;
    repeat (destruct Hin as [<- | Hin];
            [first [discriminate Htgt
                   | injection Htgt as <-;
                     eapply Cast_IWeaponInterface_inv; eassumption]|]);
    contradiction.
Qed.

Lemma interface_calls_go_to_equipped_item_witness :
  In (Execute_PressReload rifle)
    (log_of (exec op_ResPressReload_Implementation (rifle_world false)
               (set_EquipWeapon (Some rifle) AShootingGameCharacter)))
  /\ interface_call_target (Execute_PressReload rifle) = Some rifle
  /\ EquipWeapon (set_EquipWeapon (Some rifle) AShootingGameCharacter)
     = Some rifle
  /\ implementsWeaponInterface (objects (rifle_world false) rifle) = true.
Proof.
  split; [simpl; left; reflexivity|]. split; [reflexivity|].
  apply (interface_calls_go_to_equipped_item
           op_ResPressReload_Implementation (rifle_world false)
           (set_EquipWeapon (Some rifle) AShootingGameCharacter)
           (Execute_PressReload rifle) rifle);
    [simpl; left; reflexivity | reflexivity].
Defined.

(** X11.  Whatever operation runs, a set-owner call is only ever made with
    the character's own controller, which is valid then, as the owner, and
    on the item the slot holds when the operation returns. *)
Theorem set_owner_gets_controller_and_slot_item
  (o : Op) (w : World) (s : Actor) (item owner : ObjId) :
  In (Item_SetOwner item owner) (log_of (exec o w s)) ->
  IsValid_controller (GetController w) = true
  /\ option_map ctrl_id (GetController w) = Some owner
  /\ EquipWeapon (actor_of s (exec o w s)) = Some item.
Proof.
  intro Hin.
  destruct o; unfold_members; unfold_monad;
    cbv [IsValid_playerstate IsValid_controller Cast_AWeapon] in *;
    revert Hin; split_branches; cbn; intro Hin;
    repeat (destruct Hin as [Heq | Hin];
            [first [discriminate Heq
                   | injection Heq as <- <-; cbn in *;
                     repeat split; congruence]|]);
    contradiction.
Qed.

Lemma set_owner_gets_controller_and_slot_item_witness :
  In (Item_SetOwner rifle 1)
    (log_of (exec (op_SetEquipWeapon (Some rifle)) (rifle_world true)
               AShootingGameCharacter))
  /\ IsValid_controller (GetController (rifle_world true)) = true
  /\ option_map ctrl_id (GetController (rifle_world true)) = Some 1
  /\ EquipWeapon
       (actor_of AShootingGameCharacter
          (exec (op_SetEquipWeapon (Some rifle)) (rifle_world true)
             AShootingGameCharacter)) = Some rifle.
Proof.
  split; [simpl; right; left; reflexivity|].
  apply (set_owner_gets_controller_and_slot_item
           (op_SetEquipWeapon (Some rifle)) (rifle_world true)
           AShootingGameCharacter rifle 1).
  simpl; right; left; reflexivity.
Defined.

(** X12.  In the calls of any operation, every refresh of the ammo display
    of an item comes after a set-owner call and after the assignment of
    [OwnChar] on that same item. *)
Theorem ammo_refresh_after_owner (o : Op) (w : World) (s : Actor) :
  refresh_after_owner [] [] (log_of (exec o w s)) = true.
Proof.
  destruct o; unfold_members; unfold_monad;
    cbv [IsValid_playerstate IsValid_controller Cast_AWeapon];
    split_branches; cbn; rewrite ?Nat.eqb_refl; try reflexivity;
    congruence.
Qed.

Example refresh_without_owner_is_rejected :
  refresh_after_owner [] [] [Weapon_UpdateAmmoToHud rifle] = false
  /\ refresh_after_owner [] []
       [Item_SetOwner rifle 1; Weapon_UpdateAmmoToHud rifle] = false
  /\ refresh_after_owner [] []
       [Item_SetOwner rifle 1; Weapon_set_OwnChar rifle;
        Weapon_UpdateAmmoToHud rifle] = true.
Proof. repeat split. Qed.

(** ** A target that never comes *)

Lemma retries_while_unavailable (b : Binding) (env : nat -> World) :
  (forall k, target_available b (env k) = false) ->
  forall (fuel k : nat) (s : Actor),
    slot_holds b s ->
    checks fuel env k (retry_op b) s = Pending (repeat [retry_of b] fuel).
Proof.
  intros Hna fuel. induction fuel as [|fuel IH]; intros k s Hslot;
    [reflexivity|].
  cbn [checks]. rewrite (retry_unavailable b (env k) s (Hna k) Hslot).
  destruct (callback_of_retry b) as (h & cb & r & lp & Hev & Hcb).
  cbn [filter]. rewrite Hev. cbn [is_SetTimer]. rewrite Hcb.
  rewrite (IH (S k) s Hslot). rewrite <- Hev. reflexivity.
Qed.

(** X13.  If the target of a binding is missing at every check, the chain
    started by the first attempt never settles and never faults: however
    many checks are looked at, each of them made no bind action and set
    exactly one timer, the retry of this binding.  There is no retry limit
    and no back-off. *)
Theorem never_available_never_settles
  (b : Binding) (env : nat -> World) (s : Actor) (fuel : nat) :
  (forall k, target_available b (env k) = false) ->
  exists logs,
    checks fuel env 0 (first_attempt b) s = Pending logs
    /\ List.length logs = fuel
    /\ Forall (rescheduled b) logs.
Proof.
  intro Hna. destruct fuel as [|fuel].
  - exists []. repeat split. constructor.
  - cbn [checks].
    destruct (first_attempt_unavailable b (env 0) s (Hna 0))
      as (l & s1 & -> & Hslot & Hr).
    destruct Hr as [Ht Hnb]. rewrite Ht.
    destruct (callback_of_retry b) as (h & cb & r & lp & Hev & Hcb).
    rewrite Hev, Hcb.
    rewrite (retries_while_unavailable b env Hna fuel 1 s1 Hslot).
    exists (l :: repeat [retry_of b] fuel). cbn [after_check List.length].
    rewrite repeat_length. repeat split.
    constructor; [split; [exact Ht | exact Hnb]|].
    apply Forall_forall. intros x Hx.
    apply repeat_spec in Hx. subst x. apply rescheduled_retry.
Qed.

Lemma never_available_never_settles_witness :
  (forall k, target_available (WeaponOwner rifle) ((fun _ : nat => empty_world) k)
             = false)
  /\ exists logs,
       checks 4 (fun _ : nat => empty_world) 0 (first_attempt (WeaponOwner rifle))
         AShootingGameCharacter = Pending logs
       /\ List.length logs = 4
       /\ Forall (rescheduled (WeaponOwner rifle)) logs.
Proof.
  split; [intro k; reflexivity|].
  apply (never_available_never_settles (WeaponOwner rifle)
           (fun _ : nat => empty_world) AShootingGameCharacter 4).
  intro k; reflexivity.
Defined.

(** ** A player state that is no longer valid *)

(** X14.  [TakeDamage] tests its player state for null only, while
    [BindPlayerState] tests it with [IsValid]: on a shooting player state
    that is there but no longer valid, damage is still forwarded to it in
    full, whereas the binding treats it as missing and schedules a
    retry. *)
Theorem invalid_player_state_takes_damage_but_is_not_bound
  (w : World) (s : Actor) (p : PlayerStateInfo)
  (DamageAmount : float) (instigator : ObjId) (DamageCauser : Ptr) :
  GetPlayerState w = Some p ->
  ps_isShootingPlayerState p = true ->
  ps_IsValid p = false ->
  TakeDamage DamageAmount (Some instigator) DamageCauser w s
  = Returned 0%Q s
      [AddOnScreenDebugMessage (txt_TakeDamage DamageAmount instigator);
       PlayerState_AddDamage (ps_id p) DamageAmount]
  /\ BindPlayerState w s
     = Returned tt s
         [SetTimer th_BindPlayerState cb_BindPlayerState (1 # 10)%Q false].
Proof.
  intros Hps Hcast Hinv. split.
  - rewrite TakeDamage_outcome. unfold Cast_AShootingPlayerState.
    rewrite Hps, Hcast. reflexivity.
  - unfold BindPlayerState. unfold_monad.
    unfold Cast_AShootingPlayerState, IsValid_playerstate.
    rewrite Hps, Hcast, Hinv. reflexivity.
Qed.

Lemma invalid_player_state_takes_damage_but_is_not_bound_witness :
  GetPlayerState dying_world = Some (mkPlayerStateInfo 3 true false 40 100)
  /\ ps_isShootingPlayerState (mkPlayerStateInfo 3 true false 40 100) = true
  /\ ps_IsValid (mkPlayerStateInfo 3 true false 40 100) = false
  /\ TakeDamage 25 (Some 9) None dying_world AShootingGameCharacter
     = Returned 0%Q AShootingGameCharacter
         [AddOnScreenDebugMessage (txt_TakeDamage 25 9);
          PlayerState_AddDamage 3 25]
  /\ BindPlayerState dying_world AShootingGameCharacter
     = Returned tt AShootingGameCharacter
         [SetTimer th_BindPlayerState cb_BindPlayerState (1 # 10)%Q false].
Proof.
  split; [reflexivity|]. split; [reflexivity|]. split; [reflexivity|].
  apply (invalid_player_state_takes_damage_but_is_not_bound dying_world
           AShootingGameCharacter (mkPlayerStateInfo 3 true false 40 100)
           25 9 None); reflexivity.
Defined.

(** ** Witnesses of the script properties *)

Lemma slot_after_script_witness :
  exec_all [(rifle_world true, op_SetEquipWeapon (Some 5));
            (rifle_world true, op_ReqPressTrigger_Implementation);
            (empty_world, op_SetEquipWeapon (Some rifle));
            (rifle_world true, op_ResPressTrigger_Implementation)]
    AShootingGameCharacter
  = Returned tt (set_EquipWeapon (Some rifle) AShootingGameCharacter)
      [AddOnScreenDebugMessage (txt_SetOwnerComplate 1); Item_SetOwner 5 1;
       Multicast rpc_ResPressTrigger;
       SetTimer th_SetOwnerWeapon cb_TestSetOwnerWeapon (1 # 10)%Q false;
       Execute_PressTrigger rifle]
  /\ EquipWeapon (set_EquipWeapon (Some rifle) AShootingGameCharacter)
     = Some rifle.
Proof.
  split; [reflexivity|].
  apply (slot_after_script
           [(rifle_world true, op_SetEquipWeapon (Some 5));
            (rifle_world true, op_ReqPressTrigger_Implementation);
            (empty_world, op_SetEquipWeapon (Some rifle));
            (rifle_world true, op_ResPressTrigger_Implementation)]
           AShootingGameCharacter
           (set_EquipWeapon (Some rifle) AShootingGameCharacter)
           [AddOnScreenDebugMessage (txt_SetOwnerComplate 1); Item_SetOwner 5 1;
            Multicast rpc_ResPressTrigger;
            SetTimer th_SetOwnerWeapon cb_TestSetOwnerWeapon (1 # 10)%Q false;
            Execute_PressTrigger rifle]).
  reflexivity.
Defined.

Lemma script_frame_witness :
  exec_all [(rifle_world true, op_PressTrigger);
            (rifle_world true, op_ReqPressTrigger_Implementation);
            (rifle_world true, op_ResPressTrigger_Implementation);
            (rifle_world true, op_TakeDamage 25 (Some 9) None)]
    (set_EquipWeapon (Some rifle) AShootingGameCharacter)
  = Returned tt (set_EquipWeapon (Some rifle) AShootingGameCharacter)
      [SendToServer rpc_ReqPressTrigger;
       Execute_IsCanUse rifle; Multicast rpc_ResPressTrigger;
       Execute_PressTrigger rifle;
       AddOnScreenDebugMessage (txt_TakeDamage 25 9);
       PlayerState_AddDamage 3 25]
  /\ forallb (fun wo => negb (may_change_character (snd wo)))
       [(rifle_world true, op_PressTrigger);
        (rifle_world true, op_ReqPressTrigger_Implementation);
        (rifle_world true, op_ResPressTrigger_Implementation);
        (rifle_world true, op_TakeDamage 25 (Some 9) None)] = true
  /\ set_EquipWeapon (Some rifle) AShootingGameCharacter
     = set_EquipWeapon (Some rifle) AShootingGameCharacter.
Proof.
  split; [reflexivity|]. split; [reflexivity|].
  apply (script_frame
           [(rifle_world true, op_PressTrigger);
            (rifle_world true, op_ReqPressTrigger_Implementation);
            (rifle_world true, op_ResPressTrigger_Implementation);
            (rifle_world true, op_TakeDamage 25 (Some 9) None)]
           (set_EquipWeapon (Some rifle) AShootingGameCharacter)
           (set_EquipWeapon (Some rifle) AShootingGameCharacter)
           [SendToServer rpc_ReqPressTrigger;
            Execute_IsCanUse rifle; Multicast rpc_ResPressTrigger;
            Execute_PressTrigger rifle;
            AddOnScreenDebugMessage (txt_TakeDamage 25 9);
            PlayerState_AddDamage 3 25]);
    reflexivity.
Defined.

Lemma ragdolled_until_getup_witness :
  forallb (fun wo => negb (stands_up (snd wo)))
    [(empty_world, op_OnUpdateHp 0 100);
     (empty_world, op_OnUpdateHp 100 100);
     (rifle_world true, op_BeginPlay)] = true
  /\ IsRagdoll (set_IsRagdoll true AShootingGameCharacter) = true
  /\ exec_all [(empty_world, op_OnUpdateHp 0 100);
               (empty_world, op_OnUpdateHp 100 100);
               (rifle_world true, op_BeginPlay)]
       (set_IsRagdoll true AShootingGameCharacter)
     = Returned tt (set_IsRagdoll true AShootingGameCharacter)
         [AddOnScreenDebugMessage (txt_OnUpdateHp 0);
          Mesh_SetSimulatePhysics true;
          AddOnScreenDebugMessage (txt_OnUpdateHp 100);
          Super_BeginPlay;
          PlayerState_AddUFunction 3 "OnUpdateHp";
          AddOnScreenDebugMessage (txt_OnUpdateHp 100)]
  /\ IsRagdoll (set_IsRagdoll true AShootingGameCharacter) = true.
Proof.
  split; [reflexivity|]. split; [reflexivity|]. split; [reflexivity|].
  apply (ragdolled_until_getup
           [(empty_world, op_OnUpdateHp 0 100);
            (empty_world, op_OnUpdateHp 100 100);
            (rifle_world true, op_BeginPlay)]
           (set_IsRagdoll true AShootingGameCharacter)
           (set_IsRagdoll true AShootingGameCharacter)
           [AddOnScreenDebugMessage (txt_OnUpdateHp 0);
            Mesh_SetSimulatePhysics true;
            AddOnScreenDebugMessage (txt_OnUpdateHp 100);
            Super_BeginPlay;
            PlayerState_AddUFunction 3 "OnUpdateHp";
            AddOnScreenDebugMessage (txt_OnUpdateHp 100)]);
    reflexivity.
Defined.

Lemma physics_follows_flag_witness :
  exec_all [(empty_world, op_ResPressC_Implementation);
            (empty_world, op_OnUpdateHp 0 100);
            (empty_world, op_ResPressC_Implementation)]
    AShootingGameCharacter
  = Returned tt (set_IsRagdoll false AShootingGameCharacter)
      [Mesh_SetSimulatePhysics true;
       AddOnScreenDebugMessage (txt_OnUpdateHp 0);
       Mesh_SetSimulatePhysics true;
       Mesh_SetSimulatePhysics false;
       Mesh_AttachToRoot_KeepRelativeTransform;
       Mesh_SetRelativeLocationAndRotation
         (mkFVector 0 0 (-97)) (mkFRotator 0 270 0)]
  /\ physics_after (IsRagdoll AShootingGameCharacter)
       [Mesh_SetSimulatePhysics true;
        AddOnScreenDebugMessage (txt_OnUpdateHp 0);
        Mesh_SetSimulatePhysics true;
        Mesh_SetSimulatePhysics false;
        Mesh_AttachToRoot_KeepRelativeTransform;
        Mesh_SetRelativeLocationAndRotation
          (mkFVector 0 0 (-97)) (mkFRotator 0 270 0)]
     = IsRagdoll (set_IsRagdoll false AShootingGameCharacter).
Proof.
  split; [reflexivity|].
  apply (physics_follows_flag
           [(empty_world, op_ResPressC_Implementation);
            (empty_world, op_OnUpdateHp 0 100);
            (empty_world, op_ResPressC_Implementation)]
           AShootingGameCharacter
           (set_IsRagdoll false AShootingGameCharacter)).
  reflexivity.
Defined.

Lemma trigger_response_after_reequip_witness :
  implementsWeaponInterface (objects (rifle_world true) rifle) = true
  /\ map (fun st => log_of (st_outcome st))
       (skipn 2 (run [(empty_world, op_ReqPressTrigger_Implementation);
                      (empty_world, op_SetEquipWeapon (Some rifle));
                      (rifle_world true, op_ResPressTrigger_Implementation)]
                   (set_EquipWeapon (Some 5) AShootingGameCharacter)))
     = [[Execute_PressTrigger rifle]].
Proof.
  split; [reflexivity|].
  apply (trigger_response_after_reequip empty_world empty_world
           (rifle_world true)
           (set_EquipWeapon (Some 5) AShootingGameCharacter) rifle).
  reflexivity.
Defined.

(** ** Unequipping *)

Lemma TestSetOwnerWeapon_without_controller (w : World) (s : Actor) :
  IsValid_controller (GetController w) = false ->
  TestSetOwnerWeapon w s
  = Returned tt s
      [SetTimer th_SetOwnerWeapon cb_TestSetOwnerWeapon (1 # 10)%Q false].
Proof.
  intro Hna. unfold TestSetOwnerWeapon. unfold_monad. rewrite Hna.
  reflexivity.
Qed.

Lemma TestSetOwnerWeapon_empty_slot (w : World) (s : Actor) :
  IsValid_controller (GetController w) = true ->
  EquipWeapon s = None ->
  exists c,
    GetController w = Some c
    /\ TestSetOwnerWeapon w s
       = Crashed NullDereference
           [AddOnScreenDebugMessage (txt_SetOwnerComplate (ctrl_id c))].
Proof.
  intros Hav Hslot. unfold TestSetOwnerWeapon. unfold_monad. rewrite Hav.
  unfold IsValid_controller in Hav.
  destruct (GetController w) as [c|]; [|discriminate].
  exists c. split; [reflexivity|]. cbv beta iota. rewrite Hslot. reflexivity.
Qed.

Lemma empty_slot_retries_then_faults (N : nat) :
  forall (fuel : nat) (env : nat -> World) (k : nat) (s : Actor),
    EquipWeapon s = None ->
    (forall j, j < N -> IsValid_controller (GetController (env (k + j))) = false) ->
    IsValid_controller (GetController (env (k + N))) = true ->
    N < fuel ->
    exists c,
      GetController (env (k + N)) = Some c
      /\ checks fuel env k op_TestSetOwnerWeapon s
         = Faulted
             (repeat [SetTimer th_SetOwnerWeapon cb_TestSetOwnerWeapon
                        (1 # 10)%Q false] N
              ++ [[AddOnScreenDebugMessage (txt_SetOwnerComplate (ctrl_id c))]]).
Proof.
  induction N as [|N IH]; intros fuel env k s Hslot Hna Hav Hfuel;
    (destruct fuel as [|fuel]; [lia|]); cbn [checks exec].
  - rewrite Nat.add_0_r in *.
    destruct (TestSetOwnerWeapon_empty_slot (env k) s Hav Hslot)
      as (c & Hc & ->).
    exists c. split; [exact Hc | reflexivity].
  - rewrite (TestSetOwnerWeapon_without_controller (env k) s)
      by (rewrite <- (Nat.add_0_r k); apply Hna; lia).
    cbn [filter is_SetTimer callback_op].
    destruct (IH fuel env (S k) s Hslot) as (c & Hc & ->).
    + intros j Hj. replace (S k + j) with (k + S j) by lia. apply Hna. lia.
    + replace (S k + N) with (k + S N) by lia. exact Hav.
    + lia.
    + exists c. replace (k + S N) with (S k + N) by lia.
      split; [exact Hc | reflexivity].
Qed.

(** X15.  Emptying the slot with [SetEquipWeapon(nullptr)] always ends in a
    null dereference at the check that finds the controller valid: at once
    if it is valid already, and otherwise after N retries that each return
    normally and set one timer, the fault then coming from the timer
    callback, before any set-owner call. *)
Theorem unequip_faults_when_controller_arrives
  (N : nat) (env : nat -> World) (s : Actor) (fuel : nat) :
  (forall k, k < N -> IsValid_controller (GetController (env k)) = false) ->
  IsValid_controller (GetController (env N)) = true ->
  N < fuel ->
  exists c,
    GetController (env N) = Some c
    /\ checks fuel env 0 (op_SetEquipWeapon None) s
       = Faulted
           (repeat [SetTimer th_SetOwnerWeapon cb_TestSetOwnerWeapon
                      (1 # 10)%Q false] N
            ++ [[AddOnScreenDebugMessage (txt_SetOwnerComplate (ctrl_id c))]]).
Proof.
  intros Hna Hav Hfuel.
  destruct fuel as [|fuel]; [lia|]. cbn [checks exec].
  unfold SetEquipWeapon, discard, bind, assign.
  destruct N as [|N].
  - destruct (TestSetOwnerWeapon_empty_slot (env 0) (set_EquipWeapon None s)
                Hav eq_refl) as (c & Hc & ->).
    exists c. split; [exact Hc | reflexivity].
  - rewrite (TestSetOwnerWeapon_without_controller (env 0)
               (set_EquipWeapon None s) (Hna 0 ltac:(lia))).
    cbn [this ret app filter is_SetTimer callback_op].
    destruct (empty_slot_retries_then_faults N fuel env 1
                (set_EquipWeapon None s) eq_refl) as (c & Hc & ->).
    + intros j Hj. apply Hna. lia.
    + exact Hav.
    + lia.
    + exists c. split; [exact Hc | reflexivity].
Qed.

Lemma unequip_faults_when_controller_arrives_witness :
  (forall k, k < 2 ->
     IsValid_controller (GetController (arriving_late k)) = false)
  /\ IsValid_controller (GetController (arriving_late 2)) = true
  /\ 2 < 5
  /\ exists c,
       GetController (arriving_late 2) = Some c
       /\ checks 5 arriving_late 0 (op_SetEquipWeapon None)
            (set_EquipWeapon (Some rifle) AShootingGameCharacter)
          = Faulted
              (repeat [SetTimer th_SetOwnerWeapon cb_TestSetOwnerWeapon
                         (1 # 10)%Q false] 2
               ++ [[AddOnScreenDebugMessage
                      (txt_SetOwnerComplate (ctrl_id c))]]).
Proof.
  assert (Hna : forall k, k < 2 ->
            IsValid_controller (GetController (arriving_late k)) = false).
  { intros k Hk. destruct k as [|[|k]]; [reflexivity | reflexivity | lia]. }
  split; [exact Hna|]. split; [reflexivity|]. split; [lia|].
  apply (unequip_faults_when_controller_arrives 2 arriving_late
           (set_EquipWeapon (Some rifle) AShootingGameCharacter) 5 Hna);
    [reflexivity | lia].
Defined.

(** ** The control pitch over a script *)

Lemma exec_ControlPitch (o : Op) (w : World) (s s' : Actor) (l : list Event) :
  exec o w s = Returned tt s' l ->
  ControlPitch s' =
    match o with
    | op_Tick _ =>
        if HasAuthority w then Pitch (GetControlRotation w)
        else ControlPitch s
    | _ => ControlPitch s
    end.
Proof.
  intro Hexec.
  destruct o;
    try (cbn [exec] in Hexec; rewrite Tick_outcome in Hexec;
         injection Hexec as <- _; destruct (HasAuthority w); reflexivity);
    unfold_members; unfold_monad;
    cbv [IsValid_playerstate IsValid_controller] in *;
    revert Hexec; split_branches; intro Hexec;
    try discriminate Hexec;
    injection Hexec as <- _; reflexivity.
Qed.

(** X16.  After any script that runs to its end, the control pitch is the
    pitch the control rotation had at the last tick made with authority,
    however many other operations, and ticks without authority, came
    after it; with no such tick it is what it was before the script. *)
Theorem pitch_after_script
  (script : list (World * Op)) (s s' : Actor) (l : list Event) :
  exec_all script s = Returned tt s' l ->
  ControlPitch s' = pitch_after script (ControlPitch s).
Proof.
  revert s l. induction script as [|[w o] rest IH]; intros s l Hrun.
  - cbn in Hrun. injection Hrun as <- _. reflexivity.
  - apply exec_all_cons_inv in Hrun.
    destruct Hrun as (s1 & l1 & l2 & Hop & Hrest & _).
    rewrite (IH _ _ Hrest). apply exec_ControlPitch in Hop. rewrite Hop.
    destruct o; reflexivity.
Qed.

Lemma pitch_after_script_witness :
  exec_all [(looking_up_world true, op_Tick 0);
            (looking_up_world false, op_Tick 0);
            (empty_world, op_PressReload)]
    AShootingGameCharacter
  = Returned tt (set_ControlPitch 30 AShootingGameCharacter)
      [Super_Tick 0; Super_Tick 0; SendToServer rpc_ReqPressReload]
  /\ ControlPitch (set_ControlPitch 30 AShootingGameCharacter) = 30%Q.
Proof.
  split; [reflexivity|].
  apply (pitch_after_script
           [(looking_up_world true, op_Tick 0);
            (looking_up_world false, op_Tick 0);
            (empty_world, op_PressReload)]
           AShootingGameCharacter
           (set_ControlPitch 30 AShootingGameCharacter)
           [Super_Tick 0; Super_Tick 0; SendToServer rpc_ReqPressReload]).
  reflexivity.
Defined.
